(** * froncort_adk: the FastAPI front end of the SQL agent (app.py)

    A shallow embedding of the request handlers of [app.py]: the query
    handler and its event loop, the preference handlers, the reset handler
    and the WebSocket loop, followed by the properties the design document
    states about them.

    Python objects are modelled by what the handlers observe of them
    ([hasattr], truthiness, [str()], [dict.get]).  Handlers run in a small
    state-and-exception monad over a [world] that holds the process-wide
    agent, the preference table, the clock and a log of the observable
    effects (engine invocations, frames written, storage statements). *)

From Stdlib Require Import Ascii String.
From stdpp Require Import base strings gmap list pretty.

Open Scope string_scope.
Open Scope list_scope.

(** ** Python values *)

Definition newline : string := String "010"%char "".

(** A JSON value as the WebSocket loop looks at it: through its truthiness
    and its [str()].  [PyOther] stands for numbers, booleans, lists and
    dicts. *)
Inductive pyval :=
| PyNone
| PyStr (s : string)
| PyOther (truthy : bool) (text : string).

Definition str_truthy (s : string) : bool := bool_decide (s ≠ "").

Definition py_truthy (v : pyval) : bool :=
  match v with
  | PyNone => false
  | PyStr s => str_truthy s
  | PyOther b _ => b
  end.

Definition py_str (v : pyval) : string :=
  match v with
  | PyNone => "None"
  | PyStr s => s
  | PyOther _ t => t
  end.

(** [Optional[str]] inside an f-string, and under [or]. *)
Definition opt_str (o : option string) : string := default "None" o.

Definition opt_truthy (o : option string) : bool :=
  match o with Some s => str_truthy s | None => false end.

(** A field of a JSON request body, before pydantic applies its default. *)
Inductive field (A : Type) :=
| Omitted
| Null
| Given (a : A).
Arguments Omitted {A}.
Arguments Null {A}.
Arguments Given {A} a.

(** ** Engine events *)

(** One entry of [msg.tool_calls]: a dict read with [.get('name')] and
    [.get('args', {}).get('query', '')].  The argument values are taken to
    be strings, as the schemas of the tools declare them. *)
Record tool_call := ToolCall {
  tc_name : option string;
  tc_args : option (gmap string string)
}.

Definition sql_tool : string := "sql_db_query".

Definition tool_call_args (tc : tool_call) : gmap string string :=
  default ∅ (tc_args tc).

Definition tool_call_query (tc : tool_call) : string :=
  default "" (tool_call_args tc !! "query").

Definition is_sql_call (tc : tool_call) : bool :=
  bool_decide (tc_name tc = Some sql_tool).

(** [msg.content] is a string or a list of content blocks. *)
Inductive content_value :=
| ContentStr (s : string)
| ContentBlocks.

(** A message object; [None] in a field means the attribute is missing
    ([hasattr] is false), [name = Some None] is [msg.name is None]. *)
Record message := Message {
  tool_calls : option (list tool_call);
  content : option content_value;
  name : option (option string)
}.

(** An event is a dict that may hold a ["messages"] list. *)
Record event := Event { messages : option (list message) }.

(** What iterating [agent.stream(...)] does: it yields [yielded] and then
    either stops or raises with message [raised]. *)
Record engine_run := EngineRun {
  yielded : list event;
  raised : option string
}.

(** [hasattr(msg, 'name') and msg.name == 'sql_db_query'] *)
Definition name_is_sql (m : message) : bool :=
  match name m with
  | Some n => bool_decide (n = Some sql_tool)
  | None => false
  end.

(** [not hasattr(msg, 'name') or not msg.name] *)
Definition name_is_blank (m : message) : bool :=
  match name m with
  | Some n => negb (opt_truthy n)
  | None => true
  end.

(** [hasattr(msg, 'content') and isinstance(msg.content, str)] *)
Definition str_content (m : message) : option string :=
  match content m with
  | Some (ContentStr s) => Some s
  | _ => None
  end.

(** ** Requests and responses *)

Module QueryRequest.
Record t := Build { query : string; user_id : option string }.

(** [user_id: Optional[str] = "default_user"] *)
Definition parse (q : string) (uid : field string) : t :=
  {| query := q;
     user_id := match uid with
                | Omitted => Some "default_user"
                | Null => None
                | Given u => Some u
                end |}.
End QueryRequest.

Module QueryResponse.
Record t := Build {
  user_id : string;
  query : string;
  summary : string;
  sql_query : option string;
  raw_result : option string;
  timestamp : string;
  model : string
}.
End QueryResponse.

Module PreferenceRequest.
Record t := Build {
  user_id : string;
  priority_key : string;
  priority_value : string;
  context : option string;
  feedback_text : option string;
  source_query : option string
}.
End PreferenceRequest.

Module PreferenceResponse.
Record t := Build {
  message : string;
  user_id : string;
  preferences : gmap string string
}.
End PreferenceResponse.

Module ConversationClearRequest.
Record t := Build { user_id : option string }.

(** [user_id: Optional[str] = None] *)
Definition parse (uid : field string) : t :=
  {| user_id := match uid with Given u => Some u | _ => None end |}.
End ConversationClearRequest.

Module DeleteResponse.
Record t := Build {
  message : string;
  user_id : string;
  deleted_count : nat
}.
End DeleteResponse.

Module ClearResponse.
Record t := Build {
  message : string;
  new_user_id : string;
  timestamp : string
}.
End ClearResponse.

(** A row of the [user_preferences] table. *)
Record pref_row := PrefRow {
  row_user_id : string;
  row_priority_key : string;
  row_priority_value : string;
  row_context : option string;
  row_feedback_text : option string;
  row_source_query : option string;
  row_updated_at : string
}.

(** ** Frames of the WebSocket channel *)

Inductive frame :=
| FQueryRequired (error : string)
| FProcessing (user_id : string) (query : pyval)
| FToolCall (tool : option string) (args : gmap string string)
| FRawResult (text : string)
| FMessage (text : string)
| FCompleted (sql_query : option string) (timestamp : string)
| FError (error : string).

Inductive frame_kind :=
| KError | KProcessing | KToolCall | KRawResult | KMessage | KCompleted.

(** The discriminator of a frame: its ["status"] or ["type"] entry, and
    [KError] for the frames that carry an ["error"] entry. *)
Definition kind_of (f : frame) : frame_kind :=
  match f with
  | FQueryRequired _ => KError
  | FProcessing _ _ => KProcessing
  | FToolCall _ _ => KToolCall
  | FRawResult _ => KRawResult
  | FMessage _ => KMessage
  | FCompleted _ _ => KCompleted
  | FError _ => KError
  end.

Definition is_progress (f : frame) : bool :=
  match kind_of f with
  | KToolCall | KRawResult | KMessage => true
  | _ => false
  end.

Definition is_terminal (f : frame) : bool :=
  match f with
  | FCompleted _ _ | FError _ => true
  | _ => false
  end.

(** What [json.loads(data)] followed by [request_data.get("query", "")]
    makes of one inbound text frame. *)
Inductive inbound :=
| BadJson (err : string)
| NotADict (err : string)
| Request (query : option pyval).

(** ** Exceptions and observable effects *)

Inductive exn_class :=
| IndexError
| ValidationError
| EngineFailure
| JSONDecodeError
| AttributeError
| StorageFailure
| InvalidArgument
| WebSocketDisconnect.

Record exn := Exn { exn_class_of : exn_class; exn_str : string }.

Inductive db_statement :=
| DbDelete (user : string)
| DbSelect (user : string)
| DbUpsert (user key : string).

Inductive effect :=
| Invoke (thread_id : option string) (input : string)
| Send (f : frame)
| Storage (s : db_statement).

Definition sent_frames (t : list effect) : list frame :=
  omap (λ e, match e with Send f => Some f | _ => None end) t.

Definition invocations (t : list effect) : list (option string * string) :=
  omap (λ e, match e with Invoke th i => Some (th, i) | _ => None end) t.

Definition storage_ops (t : list effect) : list db_statement :=
  omap (λ e, match e with Storage s => Some s | _ => None end) t.

Inductive http (A : Type) :=
| Http200 (a : A)
| HTTPException (status_code : nat) (detail : string).
Arguments Http200 {A} a.
Arguments HTTPException {A} status_code detail.

(** ** The world the handlers run in *)

(** The agent object behind [sql_agent._global_agent], seen from outside:
    the turns (thread id, input text) it was fed since it was created. *)
Record agent := Agent { memory : list (option string * string) }.

(** The collaborators the handlers call but do not define: the reasoning
    engine (what a turn yields, given what the agent remembers), the clock
    rendering, the uuid generator and the text [update_user_priority]
    answers with.  What the agent's own tools do to the store while a turn
    runs is outside this model: the world records the effects of the
    handlers. *)
Record env := Env {
  engine : agent → option string → string → engine_run;
  isoformat : nat → string;
  uuid4 : nat → string;
  ack : string → string → string
}.

Record world := World {
  global_agent : option agent;
  user_preferences : list pref_row;
  db_fault : option string;
  clock : nat;
  entropy : nat;
  trace : list effect
}.

Definition set_agent (a : option agent) (w : world) : world :=
  World a (user_preferences w) (db_fault w) (clock w) (entropy w) (trace w).

Definition set_preferences (t : list pref_row) (w : world) : world :=
  World (global_agent w) t (db_fault w) (clock w) (entropy w) (trace w).

Definition tick (w : world) : world :=
  World (global_agent w) (user_preferences w) (db_fault w) (S (clock w))
        (entropy w) (trace w).

Definition draw (w : world) : world :=
  World (global_agent w) (user_preferences w) (db_fault w) (clock w)
        (S (entropy w)) (trace w).

Definition log (e : effect) (w : world) : world :=
  World (global_agent w) (user_preferences w) (db_fault w) (clock w)
        (entropy w) (trace w ++ [e]).

(** ** The handler monad: state and Python exceptions *)

Inductive res (A : Type) :=
| Ret (a : A)
| Raise (e : exn).
Arguments Ret {A} a.
Arguments Raise {A} e.

Definition M (A : Type) : Type := world → res A * world.

Definition ret {A} (a : A) : M A := λ w, (Ret a, w).

Definition raise {A} (e : exn) : M A := λ w, (Raise e, w).

Definition bind {A B} (m : M A) (k : A → M B) : M B :=
  λ w, match m w with
       | (Ret a, w') => k a w'
       | (Raise e, w') => (Raise e, w')
       end.

(** [try: m  except Exception as e: h e] *)
Definition try_except {A} (m : M A) (h : exn → M A) : M A :=
  λ w, match m w with
       | (Ret a, w') => (Ret a, w')
       | (Raise e, w') => h e w'
       end.

Definition effect_ (f : world → world) : M unit := λ w, (Ret tt, f w).

Notation "x <- m ;; k" := (bind m (λ x, k))
  (at level 100, m at next level, right associativity).
Notation "m ;;; k" := (bind m (λ _, k))
  (at level 100, right associativity).

(** [for x in l: s = body s x], with the loop variables threaded as [s]. *)
Fixpoint for_in {A S} (l : list A) (body : S → A → M S) (s : S) : M S :=
  match l with
  | [] => ret s
  | x :: l' => s' <- body s x ;; for_in l' body s'
  end.

(** [for event in events], where [events] is the engine's generator. *)
Definition for_events {S} (r : engine_run) (body : S → event → M S) (s : S)
  : M S :=
  s' <- for_in (yielded r) body s ;;
  match raised r with
  | Some msg => raise (Exn EngineFailure msg)
  | None => ret s'
  end.

(** [event["messages"][-1]] *)
Definition last_message (l : list message) : M message :=
  match last l with
  | Some m => ret m
  | None => raise (Exn IndexError "list index out of range")
  end.

Section App.
Variable E : env.

(** [datetime.now().isoformat()] *)
Definition now_isoformat : M string :=
  λ w, (Ret (isoformat E (clock w)), tick w).

(** [str(uuid.uuid4())] *)
Definition new_uuid : M string :=
  λ w, (Ret (uuid4 E (entropy w)), draw w).

(** Modelled from the spec: [get_or_create_agent] is defined in
    sql_agent, which is not among the sources.  Section 3 of the design:
    the engine instance is process-wide, created lazily on first use and
    shared thereafter. *)
Definition get_or_create_agent : M agent :=
  λ w, match global_agent w with
       | Some a => (Ret a, w)
       | None => (Ret (Agent []), set_agent (Some (Agent [])) w)
       end.

(** [agent.stream({"messages": [("user", input)]}, config=..., ...)]: the
    call is logged and the agent (the one object [_global_agent] refers
    to) remembers the turn. *)
Definition stream (a : agent) (thread_id : option string) (input : string)
  : M engine_run :=
  λ w, (Ret (engine E a thread_id input),
        log (Invoke thread_id input)
            (set_agent (Some (Agent (memory a ++ [(thread_id, input)]))) w)).

(** [f"[User ID: {user_id}]\n{query}"] *)
Definition enhanced_input (user_id query : string) : string :=
  "[User ID: " +:+ user_id +:+ "]" +:+ newline +:+ query.

(** *** POST /query *)

(** The loop variables of [execute_query]. *)
Record collected := Collected {
  c_summary : string;
  c_sql_query : option string;
  c_raw_result : option string
}.

(** Lines 127-130: the tool calls of one message. *)
Definition extract_sql (sql : option string) (msg : message)
  : option string :=
  match tool_calls msg with
  | Some tcs =>
      foldl (λ acc tc, if is_sql_call tc then Some (tool_call_query tc)
                       else acc) sql tcs
  | None => sql
  end.

(** Lines 133-137: the content of one message. *)
Definition extract_content (c : collected) (msg : message) : collected :=
  match str_content msg with
  | Some s =>
      if name_is_sql msg then Collected (c_summary c) (c_sql_query c) (Some s)
      else if name_is_blank msg then
        Collected s (c_sql_query c) (c_raw_result c)
      else c
  | None => c
  end.

(** Lines 123-137: the body of [for event in events]. *)
Definition collect_event (c : collected) (ev : event) : M collected :=
  match messages ev with
  | Some l =>
      msg <- last_message l ;;
      let c1 := Collected (c_summary c) (extract_sql (c_sql_query c) msg)
                          (c_raw_result c) in
      ret (extract_content c1 msg)
  | None => ret c
  end.

Definition fallback_summary : string := "Query processed successfully".

(** [QueryResponse(user_id=..., ...)]: [user_id] is declared [str], so
    pydantic rejects [None]. *)
Definition QueryResponse_new (user_id : option string) (query summary : string)
    (sql_query raw_result : option string) (timestamp : string)
  : M QueryResponse.t :=
  match user_id with
  | Some u =>
      ret (QueryResponse.Build u query summary sql_query raw_result
                               timestamp "Gemini 2.0 Flash")
  | None =>
      raise (Exn ValidationError "1 validation error for QueryResponse")
  end.

(** Lines 106-146: the [try] block. *)
Definition execute_query_body (request : QueryRequest.t)
  : M QueryResponse.t :=
  a <- get_or_create_agent ;;
  let thread_id := QueryRequest.user_id request in
  let input := enhanced_input (opt_str (QueryRequest.user_id request))
                              (QueryRequest.query request) in
  events <- stream a thread_id input ;;
  c <- for_events events collect_event (Collected "" None None) ;;
  ts <- now_isoformat ;;
  QueryResponse_new (QueryRequest.user_id request)
    (QueryRequest.query request)
    (if str_truthy (c_summary c) then c_summary c else fallback_summary)
    (c_sql_query c) (c_raw_result c) ts.

Definition execute_query (request : QueryRequest.t) (w : world)
  : http QueryResponse.t * world :=
  match execute_query_body request w with
  | (Ret r, w') => (Http200 r, w')
  | (Raise e, w') =>
      (HTTPException 500 ("Query execution failed: " +:+ exn_str e), w')
  end.

(** *** The preference store *)

(** One statement against the sqlite file: it is logged, and it raises
    when the store is unavailable. *)
Definition db_execute (s : db_statement) : M unit :=
  λ w, match db_fault w with
       | Some msg => (Raise (Exn StorageFailure msg), log (Storage s) w)
       | None => (Ret tt, log (Storage s) w)
       end.

Definition rows_of (user : string) (t : list pref_row) : list pref_row :=
  filter (λ r, row_user_id r = user) t.

Definition rows_not_of (user : string) (t : list pref_row) : list pref_row :=
  filter (λ r, row_user_id r ≠ user) t.

(** Modelled from the spec: [get_user_priorities] is a tool of sql_agent,
    which is not among the sources.  Section 4.1, [listForUser]: all live
    keys of the user with their values, the empty mapping if none; a
    storage failure surfaces to the caller.  [json.loads] of the tool's
    answer is the mapping itself. *)
Definition get_user_priorities (user : string) : M (gmap string string) :=
  db_execute (DbSelect user) ;;;
  λ w, (Ret (list_to_map
               ((λ r, (row_priority_key r, row_priority_value r))
                  <$> rows_of user (user_preferences w))), w).

Fixpoint upsert_row (r : pref_row) (t : list pref_row) : list pref_row :=
  match t with
  | [] => [r]
  | r' :: t' =>
      if bool_decide (row_user_id r' = row_user_id r
                      ∧ row_priority_key r' = row_priority_key r)
      then PrefRow (row_user_id r') (row_priority_key r')
                   (row_priority_value r) (row_context r)
                   (row_feedback_text r) (row_source_query r')
                   (row_updated_at r) :: t'
      else r' :: upsert_row r t'
  end.

(** Modelled from the spec: [update_user_priority] is a tool of sql_agent,
    which is not among the sources.  Section 4.1, [upsert]: user, key and
    value are non-empty, and malformed input fails as [InvalidArgument]
    before any I/O; otherwise the (user, key) record is created or its
    value, context, feedback and time stamp are overwritten. *)
Definition update_user_priority (user key value : string)
    (context feedback_text source_query : option string) : M string :=
  if negb (str_truthy user) || negb (str_truthy key)
     || negb (str_truthy value)
  then raise (Exn InvalidArgument
                  "user_id, priority_key and priority_value are required")
  else
    db_execute (DbUpsert user key) ;;;
    ts <- now_isoformat ;;
    effect_ (λ w, set_preferences
                    (upsert_row (PrefRow user key value context
                                         feedback_text source_query ts)
                                (user_preferences w)) w) ;;;
    ret (ack E key value).

(** *** POST /preferences *)

Definition save_preference_body (request : PreferenceRequest.t)
  : M PreferenceResponse.t :=
  result <- update_user_priority
              (PreferenceRequest.user_id request)
              (PreferenceRequest.priority_key request)
              (PreferenceRequest.priority_value request)
              (PreferenceRequest.context request)
              (PreferenceRequest.feedback_text request)
              (PreferenceRequest.source_query request) ;;
  preferences <- get_user_priorities (PreferenceRequest.user_id request) ;;
  ret (PreferenceResponse.Build result (PreferenceRequest.user_id request)
                                preferences).

Definition save_preference (request : PreferenceRequest.t) (w : world)
  : http PreferenceResponse.t * world :=
  match save_preference_body request w with
  | (Ret r, w') => (Http200 r, w')
  | (Raise e, w') =>
      (HTTPException 500 ("Failed to save preference: " +:+ exn_str e), w')
  end.

(** *** DELETE /preferences/{user_id} *)

(** [DELETE FROM user_preferences WHERE user_id = ?] with
    [cursor.rowcount], then [commit]. *)
Definition delete_preferences_body (user_id : string)
  : M DeleteResponse.t :=
  db_execute (DbDelete user_id) ;;;
  λ w,
    let deleted_count := length (rows_of user_id (user_preferences w)) in
    (Ret (DeleteResponse.Build
            ("Deleted " +:+ pretty deleted_count +:+ " preferences for user "
               +:+ user_id)
            user_id deleted_count),
     set_preferences (rows_not_of user_id (user_preferences w)) w).

Definition delete_preferences (user_id : string) (w : world)
  : http DeleteResponse.t * world :=
  match delete_preferences_body user_id w with
  | (Ret r, w') => (Http200 r, w')
  | (Raise e, w') =>
      (HTTPException 500 ("Failed to delete preferences: " +:+ exn_str e), w')
  end.

(** *** POST /clear *)

Definition clear_conversation_body (request : ConversationClearRequest.t)
  : M ClearResponse.t :=
  effect_ (set_agent None) ;;;
  new_user_id <-
    (match ConversationClearRequest.user_id request with
     | Some u => if str_truthy u then ret u else new_uuid
     | None => new_uuid
     end) ;;
  ts <- now_isoformat ;;
  ret (ClearResponse.Build "Conversation memory cleared" new_user_id ts).

Definition clear_conversation (request : ConversationClearRequest.t)
    (w : world) : http ClearResponse.t * world :=
  match clear_conversation_body request w with
  | (Ret r, w') => (Http200 r, w')
  | (Raise e, w') =>
      (HTTPException 500 ("Failed to clear memory: " +:+ exn_str e), w')
  end.

(** *** WebSocket /ws/{user_id} *)

(** [await websocket.send_json(...)], with the peer connected. *)
Definition send_json (f : frame) : M unit := effect_ (log (Send f)).

(** Lines 337-345: one tool call of a message. *)
Definition ws_tool_call (sql : option string) (tc : tool_call)
  : M (option string) :=
  send_json (FToolCall (tc_name tc) (tool_call_args tc)) ;;;
  ret (if is_sql_call tc then Some (tool_call_query tc) else sql).

(** Lines 332-359: the body of [for event in events]; the loop variables
    are [sql_query] and [raw_result]. *)
Definition ws_event (s : option string * option string) (ev : event)
  : M (option string * option string) :=
  match messages ev with
  | Some l =>
      msg <- last_message l ;;
      sql <- (match tool_calls msg with
              | Some tcs => for_in tcs ws_tool_call (s.1)
              | None => ret (s.1)
              end) ;;
      match str_content msg with
      | Some c =>
          if name_is_sql msg then
            send_json (FRawResult c) ;;; ret (sql, Some c)
          else if name_is_blank msg then
            send_json (FMessage c) ;;; ret (sql, s.2)
          else ret (sql, s.2)
      | None => ret (sql, s.2)
      end
  | None => ret s
  end.

(** Lines 309-372: one utterance, from the [processing] frame on. *)
Definition ws_turn (user_id : string) (query : pyval) : M unit :=
  send_json (FProcessing user_id query) ;;;
  try_except
    (a <- get_or_create_agent ;;
     events <- stream a (Some user_id)
                      (enhanced_input user_id (py_str query)) ;;
     s <- for_events events ws_event (None, None) ;;
     ts <- now_isoformat ;;
     send_json (FCompleted (s.1) ts))
    (λ e, send_json (FError (exn_str e))).

(** Lines 297-372: [while True], over the text frames the client sends
    before it disconnects. *)
Fixpoint ws_loop (user_id : string) (frames : list inbound) : M unit :=
  match frames with
  | [] => raise (Exn WebSocketDisconnect "")
  | BadJson err :: _ => raise (Exn JSONDecodeError err)
  | NotADict err :: _ => raise (Exn AttributeError err)
  | Request q :: rest =>
      let query := default (PyStr "") q in
      if negb (py_truthy query) then
        send_json (FQueryRequired "Query is required") ;;;
        ws_loop user_id rest
      else
        ws_turn user_id query ;;;
        ws_loop user_id rest
  end.

(** Lines 294-384: the two outer [except] clauses. *)
Definition websocket_endpoint (user_id : string) (frames : list inbound)
  : M unit :=
  try_except (ws_loop user_id frames)
    (λ e, match exn_class_of e with
          | WebSocketDisconnect => ret tt
          | _ => try_except (send_json (FError (exn_str e))) (λ _, ret tt)
          end).

End App.

(** ** What a turn shows: the vocabulary of the properties *)

(** An event with an empty ["messages"] list makes [[-1]] raise. *)
Definition well_formed (ev : event) : bool :=
  match messages ev with
  | Some [] => false
  | _ => true
  end.

(** The events the loop gets through before one is ill-formed. *)
Fixpoint good_prefix (evs : list event) : list event :=
  match evs with
  | ev :: evs' => if well_formed ev then ev :: good_prefix evs' else []
  | [] => []
  end.

(** The messages the loop looks at: the last one of each event that has
    any. *)
Definition observed (evs : list event) : list message :=
  omap (λ ev, messages ev ≫= last) evs.

(** The invocations of the designated SQL tool, in order. *)
Definition sql_calls_of (msg : message) : list tool_call :=
  filter (λ tc, is_sql_call tc) (default [] (tool_calls msg)).

Definition sql_invocations (msgs : list message) : list tool_call :=
  msgs ≫= sql_calls_of.

(** The text of a message that no tool authored. *)
Definition summary_text (msg : message) : option string :=
  s ← str_content msg;
  if negb (name_is_sql msg) && name_is_blank msg then Some s else None.

Definition summary_texts (msgs : list message) : list string :=
  omap summary_text msgs.

(** The text the designated SQL tool answered with. *)
Definition raw_text (msg : message) : option string :=
  s ← str_content msg;
  if name_is_sql msg then Some s else None.

Definition raw_results (msgs : list message) : list string :=
  omap raw_text msgs.

(** The frames one observed message stands for on the channel. *)
Definition frames_of (msg : message) : list frame :=
  ((λ tc, FToolCall (tc_name tc) (tool_call_args tc))
     <$> default [] (tool_calls msg))
  ++ match str_content msg with
     | Some c =>
         if name_is_sql msg then [FRawResult c]
         else if name_is_blank msg then [FMessage c]
         else []
     | None => []
     end.

Definition progress_frames (msgs : list message) : list frame :=
  msgs ≫= frames_of.

(** The agent a handler gets from [get_or_create_agent] in world [w]. *)
Definition current_agent (w : world) : agent :=
  default (Agent []) (global_agent w).

(** The run the engine answers a POST /query request with. *)
Definition query_run (E : env) (request : QueryRequest.t) (w : world)
  : engine_run :=
  engine E (current_agent w) (QueryRequest.user_id request)
         (enhanced_input (opt_str (QueryRequest.user_id request))
                         (QueryRequest.query request)).

(** The run the engine answers an utterance on the channel with. *)
Definition channel_run (E : env) (user_id : string) (query : pyval)
    (w : world) : engine_run :=
  engine E (current_agent w) (Some user_id)
         (enhanced_input user_id (py_str query)).

(** ** Sample collaborators and inputs, for evaluating the handlers *)

(** An engine that answers every turn with the run [r]. *)
Definition scripted (r : engine_run) : env :=
  Env (λ _ _ _, r)
      (λ n, "T" +:+ pretty n)
      (λ n, "uuid-" +:+ pretty n)
      (λ k v, "Updated " +:+ k +:+ " to " +:+ v).

Definition boot : world := World None [] None 0 0 [].

Definition sql_call (q : string) : tool_call :=
  ToolCall (Some sql_tool) (Some {[ "query" := q ]}).

(** An AI message that asks for tool calls: empty content, no name. *)
Definition ai_calls (tcs : list tool_call) : message :=
  Message (Some tcs) (Some (ContentStr "")) (Some None).

(** An AI message with text and no tool call. *)
Definition ai_says (s : string) : message :=
  Message (Some []) (Some (ContentStr s)) (Some None).

(** The message a tool answers with. *)
Definition tool_says (tool s : string) : message :=
  Message None (Some (ContentStr s)) (Some (Some tool)).

Definition state_of (l : list message) : event := Event (Some l).

(** A turn that stops at the tool call: the engine raises afterwards. *)
Definition broken_run : engine_run :=
  EngineRun [ state_of [ai_calls [sql_call "SELECT 1"]] ] (Some "timeout").

(** A turn whose last message asks for a tool and says nothing. *)
Definition silent_run : engine_run :=
  EngineRun [ state_of [ai_calls [sql_call "SELECT 1"]] ] None.

Definition pref (user key value : string) : pref_row :=
  PrefRow user key value None None None "T0".

(** A world with two preferences of alice and one of bob. *)
Definition stocked : world :=
  World None
        [pref "alice" "cost" "low"; pref "bob" "cost" "high";
         pref "alice" "coverage" "high"]
        None 0 0 [].

(** A turn whose only SQL call comes without arguments. *)
Definition bare_run : engine_run :=
  EngineRun [ state_of [ai_calls [ToolCall (Some sql_tool) None]];
              state_of [ai_says "Nothing to run"] ] None.

(** The stocked world with its store out of reach. *)
Definition offline : world :=
  World None (user_preferences stocked) (Some "unable to open database file")
        0 0 [].

Definition retry_run : engine_run :=
  EngineRun [ state_of [ai_calls [sql_call "SELECT 1"]];
              state_of [tool_says sql_tool "error"];
              state_of [ai_calls [sql_call "SELECT 2"]];
              state_of [tool_says sql_tool "[(2,)]"];
              state_of [ai_says "The answer is 2"] ] None.

(** One message through lines 127-137, as a pure step. *)
Definition collect_msg (c : collected) (msg : message) : collected :=
  extract_content
    (Collected (c_summary c) (extract_sql (c_sql_query c) msg)
               (c_raw_result c)) msg.

(** Last-wins: the latest of [l] if there is one, else what was there. *)
Definition latest {A} (l : list A) (before : option A) : option A :=
  match last l with
  | Some x => Some x
  | None => before
  end.

(** The world once the agent was obtained and fed a turn. *)
Definition after_invoke (thread_id : option string) (input : string)
    (w : world) : world :=
  log (Invoke thread_id input)
      (set_agent (Some (Agent (memory (current_agent w)
                                 ++ [(thread_id, input)]))) w).

(** The summary a response carries, given the texts of the messages that
    no tool authored. *)
Definition summary_of (texts : list string) : string :=
  match last texts with
  | Some s => if str_truthy s then s else fallback_summary
  | None => fallback_summary
  end.

(** The turn runs to its end: no event is ill-formed and the engine does
    not raise. *)
Definition completes (r : engine_run) : bool :=
  forallb well_formed (yielded r)
  && match raised r with None => true | Some _ => false end.

(** The world after the frames [fs] were written to the channel. *)
Definition emit (fs : list frame) (w : world) : world :=
  World (global_agent w) (user_preferences w) (db_fault w) (clock w)
        (entropy w) (trace w ++ (Send <$> fs)).

(** One message through lines 336-359, as a pure step on the loop
    variables [sql_query] and [raw_result]. *)
Definition ws_msg (s : option string * option string) (msg : message)
  : option string * option string :=
  (latest (tool_call_query <$> sql_calls_of msg) (s.1),
   latest (option_list (raw_text msg)) (s.2)).

(** The frames between [processing] and the terminal frame of a turn. *)
Definition turn_progress (E : env) (user_id : string) (query : pyval)
    (w : world) : list frame :=
  progress_frames (observed (good_prefix (yielded (channel_run E user_id
                                                              query w)))).

(** The terminal frame of a turn. *)
Definition turn_terminal (E : env) (user_id : string) (query : pyval)
    (w : world) : frame :=
  let r := channel_run E user_id query w in
  if forallb well_formed (yielded r) then
    match raised r with
    | None =>
        FCompleted
          (latest (tool_call_query <$> sql_invocations (observed (yielded r)))
                  None)
          (isoformat E (clock w))
    | Some msg => FError msg
    end
  else FError "list index out of range".

(** The world after one utterance on the channel. *)
Definition after_turn (E : env) (user_id : string) (query : pyval)
    (w : world) : world :=
  let w1 := after_invoke (Some user_id)
              (enhanced_input user_id (py_str query))
              (emit [FProcessing user_id query] w) in
  let w2 := emit (turn_progress E user_id query w) w1 in
  emit [turn_terminal E user_id query w]
       (if completes (channel_run E user_id query w) then tick w2 else w2).

(** ** More vocabulary: what a connection shows *)

(** The texts of the [message] frames, of the [raw_result] frames, and the
    tool and arguments of the [tool_call] frames, in order. *)
Definition message_texts (fs : list frame) : list string :=
  omap (λ f, match f with FMessage s => Some s | _ => None end) fs.

Definition raw_result_texts (fs : list frame) : list string :=
  omap (λ f, match f with FRawResult s => Some s | _ => None end) fs.

Definition shown_tool_calls (fs : list frame)
  : list (option string * gmap string string) :=
  omap (λ f, match f with FToolCall t a => Some (t, a) | _ => None end) fs.

(** All tool calls of the observed messages, of whatever tool. *)
Definition tool_calls_of (msgs : list message) : list tool_call :=
  msgs ≫= (λ msg, default [] (tool_calls msg)).

(** The frames that close the handling of one inbound frame: the terminal
    frames of a turn and the refusal of an empty query. *)
Definition closes_utterance (f : frame) : bool :=
  match f with
  | FCompleted _ _ | FError _ | FQueryRequired _ => true
  | _ => false
  end.

(** An inbound frame on which [json.loads] or [.get] raises. *)
Definition malformed (f : inbound) : bool :=
  match f with
  | Request _ => false
  | _ => true
  end.

(** The inbound frames the loop gets to: those up to and including the
    first malformed one. *)
Fixpoint received (frames : list inbound) : list inbound :=
  match frames with
  | [] => []
  | f :: rest => if malformed f then [f] else f :: received rest
  end.

(** The non-empty utterances among the inbound frames the loop gets to. *)
Fixpoint utterances (frames : list inbound) : list pyval :=
  match frames with
  | Request q :: rest =>
      let query := default (PyStr "") q in
      if py_truthy query then query :: utterances rest else utterances rest
  | _ => []
  end.

(** The world after the request frames at the head of [frames] were
    handled, that is when the loop stops. *)
Fixpoint after_frames (E : env) (user_id : string) (frames : list inbound)
    (w : world) : world :=
  match frames with
  | Request q :: rest =>
      let query := default (PyStr "") q in
      after_frames E user_id rest
        (if py_truthy query then after_turn E user_id query w
         else log (Send (FQueryRequired "Query is required")) w)
  | _ => w
  end.

(** What stops the loop: the exception of the first malformed frame, or
    the disconnect. *)
Fixpoint stops_with (frames : list inbound) : exn :=
  match frames with
  | [] => Exn WebSocketDisconnect ""
  | BadJson err :: _ => Exn JSONDecodeError err
  | NotADict err :: _ => Exn AttributeError err
  | Request _ :: rest => stops_with rest
  end.

(** How the frames [block] close the inbound frame [f] on the channel of
    [user_id]: a malformed frame by one [error] frame with its message, an
    empty query by the refusal alone, an utterance by its [processing]
    frame, progress frames and one terminal frame; in each case the last
    frame of the block, and no other, closes. *)
Definition closed_by (user_id : string) (f : inbound) (block : list frame)
  : Prop :=
  ∃ body closing,
    block = body ++ [closing]
    ∧ Forall (λ g, closes_utterance g = false) body
    ∧ closes_utterance closing = true
    ∧ match f with
      | BadJson err | NotADict err => body = [] ∧ closing = FError err
      | Request q =>
          let query := default (PyStr "") q in
          if py_truthy query then
            (∃ progress,
               body = FProcessing user_id query :: progress
               ∧ Forall (λ g, is_progress g = true) progress)
            ∧ is_terminal closing = true
          else body = [] ∧ closing = FQueryRequired "Query is required"
      end.

(** ** Properties *)

Ltac run_monad :=
  unfold bind, ret, raise, try_except, effect_, send_json, last_message in *;
  simpl in *.

Lemma latest_app {A} (l1 l2 : list A) (o : option A) :
  latest (l1 ++ l2) o = latest l2 (latest l1 o).
Proof. unfold latest. rewrite last_app. by destruct (last l2). Qed.

Lemma extract_sql_latest (sql : option string) (msg : message) :
  extract_sql sql msg = latest (tool_call_query <$> sql_calls_of msg) sql.
Proof.
  unfold extract_sql, sql_calls_of.
  destruct (tool_calls msg) as [tcs|]; simpl; [|done].
  revert sql. induction tcs as [|tc tcs IH] using rev_ind; intros sql; [done|].
  rewrite foldl_app, filter_app, fmap_app, latest_app, <- IH. simpl.
  rewrite filter_cons, filter_nil.
  destruct (is_sql_call tc); simpl; done.
Qed.

Lemma collect_msg_sql (c : collected) (msg : message) :
  c_sql_query (collect_msg c msg)
  = latest (tool_call_query <$> sql_calls_of msg) (c_sql_query c).
Proof.
  unfold collect_msg, extract_content. rewrite <- extract_sql_latest.
  destruct (str_content msg); [|done].
  destruct (name_is_sql msg); [done|]. by destruct (name_is_blank msg).
Qed.

Lemma collect_msg_summary (c : collected) (msg : message) :
  c_summary (collect_msg c msg) = default (c_summary c) (summary_text msg).
Proof.
  unfold collect_msg, extract_content, summary_text.
  destruct (str_content msg); simpl; [|done].
  destruct (name_is_sql msg) eqn:Hsql; simpl; [done|].
  by destruct (name_is_blank msg).
Qed.

Lemma collect_msg_raw (c : collected) (msg : message) :
  c_raw_result (collect_msg c msg)
  = latest (option_list (raw_text msg)) (c_raw_result c).
Proof.
  unfold collect_msg, extract_content, raw_text.
  destruct (str_content msg); simpl; [|done].
  destruct (name_is_sql msg); simpl; [done|].
  by destruct (name_is_blank msg).
Qed.

(** The three loop variables after the whole stream: each is the latest
    value of its kind. *)
Lemma collect_all (msgs : list message) (c : collected) :
  c_sql_query (foldl collect_msg c msgs)
    = latest (tool_call_query <$> sql_invocations msgs) (c_sql_query c)
  ∧ c_summary (foldl collect_msg c msgs)
    = default (c_summary c) (last (summary_texts msgs))
  ∧ c_raw_result (foldl collect_msg c msgs)
    = latest (raw_results msgs) (c_raw_result c).
Proof.
  induction msgs as [|m msgs IH] using rev_ind; [done|].
  destruct IH as (IH1 & IH2 & IH3).
  unfold sql_invocations, summary_texts, raw_results in *.
  rewrite foldl_app, bind_app, fmap_app, !omap_app, !latest_app. simpl.
  rewrite collect_msg_sql, collect_msg_summary, collect_msg_raw.
  rewrite IH1, IH2, IH3, app_nil_r.
  split_and!; [done| |].
  - rewrite last_app. by destruct (summary_text m).
  - by destruct (raw_text m).
Qed.

(** The event loop of POST /query: it stops with [IndexError] at the first
    event whose message list is empty and otherwise folds [collect_msg]
    over the observed messages; the world is not touched. *)
Lemma for_in_collect (evs : list event) (c : collected) (w : world) :
  for_in evs collect_event c w
  = (if forallb well_formed evs then Ret (foldl collect_msg c (observed evs))
     else Raise (Exn IndexError "list index out of range"), w).
Proof.
  revert c. induction evs as [|[[l|]] evs IH]; intros c; simpl; [done| |].
  - run_monad. unfold collect_event, well_formed. simpl.
    destruct (last l) as [m|] eqn:Hl.
    + destruct l as [|m0 l0]; [done|]. run_monad. rewrite Hl. simpl. apply IH.
    + apply last_None in Hl. subst l. done.
  - run_monad. apply IH.
Qed.

Section Properties.
Variable E : env.

(** POST /query, case by case. *)
Lemma execute_query_cases (request : QueryRequest.t) (w : world) :
  let r := query_run E request w in
  let w1 := after_invoke (QueryRequest.user_id request)
              (enhanced_input (opt_str (QueryRequest.user_id request))
                              (QueryRequest.query request)) w in
  let msgs := observed (yielded r) in
  execute_query E request w
  = if forallb well_formed (yielded r) then
      match raised r with
      | Some msg =>
          (HTTPException 500 ("Query execution failed: " +:+ msg), w1)
      | None =>
          match QueryRequest.user_id request with
          | Some u =>
              (Http200
                 (QueryResponse.Build u (QueryRequest.query request)
                    (summary_of (summary_texts msgs))
                    (latest (tool_call_query <$> sql_invocations msgs) None)
                    (latest (raw_results msgs) None)
                    (isoformat E (clock w)) "Gemini 2.0 Flash"),
               tick w1)
          | None =>
              (HTTPException 500
                 ("Query execution failed: "
                    +:+ "1 validation error for QueryResponse"), tick w1)
          end
      end
    else
      (HTTPException 500
         ("Query execution failed: " +:+ "list index out of range"), w1).
Proof.
  intros r w1 msgs. subst r w1 msgs.
  unfold execute_query, execute_query_body, query_run, after_invoke,
    current_agent, get_or_create_agent, stream, for_events, now_isoformat,
    QueryResponse_new.
  run_monad.
  destruct (global_agent w) as [a|]; simpl; rewrite for_in_collect;
    (match goal with
     | |- context [forallb well_formed ?evs] =>
         destruct (forallb well_formed evs); [|done]
     end);
    (match goal with
     | |- context [raised ?r] =>
         destruct (raised r); [done|];
         destruct (collect_all (observed (yielded r))
                               (Collected "" None None))
           as (Hsql & Hsum & Hraw)
     end);
    simpl in *;
    (destruct (QueryRequest.user_id request); [|done]);
    rewrite Hsql, Hraw, Hsum; unfold summary_of;
    match goal with
    | |- context [last ?l] => by destruct (last l)
    end.
Qed.

Lemma invocations_log_invoke (t : list effect) (th : option string)
    (i : string) :
  invocations (t ++ [Invoke th i]) = invocations t ++ [(th, i)].
Proof. unfold invocations. by rewrite omap_app. Qed.

Lemma completes_inv (r : engine_run) :
  completes r = true →
  forallb well_formed (yielded r) = true ∧ raised r = None.
Proof.
  unfold completes. intros H. apply andb_true_iff in H as [H1 H2].
  split; [done|]. by destruct (raised r).
Qed.

(** A request with a user id whose turn runs to its end is answered. *)
Lemma execute_query_completes (request : QueryRequest.t) (w : world)
    (uid : string) :
  QueryRequest.user_id request = Some uid →
  completes (query_run E request w) = true →
  let msgs := observed (yielded (query_run E request w)) in
  ∃ w',
    execute_query E request w
    = (Http200
         (QueryResponse.Build uid (QueryRequest.query request)
            (summary_of (summary_texts msgs))
            (latest (tool_call_query <$> sql_invocations msgs) None)
            (latest (raw_results msgs) None)
            (isoformat E (clock w)) "Gemini 2.0 Flash"), w').
Proof.
  intros Huid Hrun msgs. apply completes_inv in Hrun as [Hwf Hraised].
  rewrite execute_query_cases, Hwf, Hraised, Huid. by eexists.
Qed.

Lemma filter_bind {A B} (P : B → Prop) `{!∀ x, Decision (P x)}
    (f : A → list B) (l : list A) :
  filter P (l ≫= f) = l ≫= (λ x, filter P (f x)).
Proof.
  induction l as [|x l IH]; [done|].
  change ((x :: l) ≫= f) with (f x ++ (l ≫= f)).
  rewrite filter_app, IH. done.
Qed.

(** The invocations the loop takes for the designated tool are the tool
    calls whose name is ["sql_db_query"]. *)
Lemma sql_invocations_by_name (msgs : list message) :
  sql_invocations msgs
  = filter (λ tc, tc_name tc = Some "sql_db_query") (tool_calls_of msgs).
Proof.
  unfold sql_invocations, tool_calls_of, sql_calls_of.
  rewrite filter_bind.
  induction msgs as [|m msgs IH]; [done|].
  change ((m :: msgs) ≫= ?f) with (f m ++ (msgs ≫= f)). rewrite IH.
  f_equal. apply list_filter_iff. intros tc. unfold is_sql_call, sql_tool.
  by rewrite bool_decide_spec.
Qed.

(** C1. When a turn holds invocations of the designated SQL tool, that is
    tool calls named ["sql_db_query"], the SQL text of the response is the
    [query] argument of the latest of them: for queries Q1 then Q2 it is
    Q2. *)
Theorem C1_sql_text_is_latest_invocation
    (request : QueryRequest.t) (w : world) (uid : string)
    (earlier : list tool_call) (tc : tool_call)
    (args : gmap string string) (q : string) :
  QueryRequest.user_id request = Some uid →
  completes (query_run E request w) = true →
  filter (λ tc, tc_name tc = Some "sql_db_query")
         (tool_calls_of (observed (yielded (query_run E request w))))
    = earlier ++ [tc] →
  tc_args tc = Some args →
  args !! "query" = Some q →
  ∃ resp w',
    execute_query E request w = (Http200 resp, w')
    ∧ QueryResponse.sql_query resp = Some q.
Proof.
  intros Huid Hrun Hcalls Hargs Hq.
  destruct (execute_query_completes request w uid Huid Hrun) as [w' Hx].
  eexists _, w'. split; [exact Hx|]. cbn [QueryResponse.sql_query].
  rewrite sql_invocations_by_name, Hcalls, fmap_app. unfold latest.
  change (tool_call_query <$> [tc]) with [tool_call_query tc].
  rewrite last_snoc. unfold tool_call_query, tool_call_args.
  rewrite Hargs. simpl. by rewrite Hq.
Qed.

(** C2 (amended). When a turn holds no message that no tool authored, the
    summary of the response is the fixed fallback; otherwise it is the
    text of the last such message if that text is not empty, and the
    fallback if it is empty.  The SQL text is absent when the designated
    tool was not invoked, and the raw result is absent when it did not
    answer. *)
Theorem C2_summary_or_fallback
    (request : QueryRequest.t) (w : world) (uid : string) :
  QueryRequest.user_id request = Some uid →
  completes (query_run E request w) = true →
  let msgs := observed (yielded (query_run E request w)) in
  ∃ resp w',
    execute_query E request w = (Http200 resp, w')
    ∧ (summary_texts msgs = [] →
       QueryResponse.summary resp = "Query processed successfully")
    ∧ (∀ before s, summary_texts msgs = before ++ [s] →
         (s ≠ "" → QueryResponse.summary resp = s)
         ∧ (s = "" →
            QueryResponse.summary resp = "Query processed successfully"))
    ∧ (sql_invocations msgs = [] → QueryResponse.sql_query resp = None)
    ∧ (raw_results msgs = [] → QueryResponse.raw_result resp = None).
Proof.
  intros Huid Hrun msgs.
  destruct (execute_query_completes request w uid Huid Hrun) as [w' Hq].
  fold msgs in Hq. eexists _, w'. split; [exact Hq|].
  cbn [QueryResponse.summary QueryResponse.sql_query
       QueryResponse.raw_result].
  split_and!.
  - intros ->. done.
  - intros before s ->. unfold summary_of. rewrite last_snoc.
    unfold str_truthy. split; intros Hs.
    + by rewrite bool_decide_eq_true_2.
    + by rewrite bool_decide_eq_false_2 by (by intros []).
  - intros ->. done.
  - intros ->. done.
Qed.

(** C8. The engine is invoked once per request, with the utterance
    behind the textual prefix that names the user ("[User ID: ", the
    user id, "]" and a line feed), while the response carries the
    utterance as the caller sent it. *)
Theorem C8_engine_input_is_prefixed_utterance
    (request : QueryRequest.t) (w : world) :
  let out := execute_query E request w in
  (∀ uid, QueryRequest.user_id request = Some uid →
     invocations (trace (out.2))
     = invocations (trace w)
       ++ [(Some uid,
            "[User ID: " +:+ uid +:+ "]"
              +:+ String "010"%char (QueryRequest.query request))])
  ∧ (QueryRequest.user_id request = None →
     invocations (trace (out.2))
     = invocations (trace w)
       ++ [(None,
            "[User ID: None]"
              +:+ String "010"%char (QueryRequest.query request))])
  ∧ (∀ resp, out.1 = Http200 resp →
       QueryResponse.query resp = QueryRequest.query request)
  ∧ (∀ uid, QueryRequest.user_id request = Some uid →
       completes (query_run E request w) = true →
       ∃ resp, out.1 = Http200 resp
               ∧ QueryResponse.query resp = QueryRequest.query request).
Proof.
  intros out. subst out. split_and!.
  - intros uid Huid. rewrite execute_query_cases, Huid.
    repeat case_match; simpl; apply invocations_log_invoke.
  - intros Huid. rewrite execute_query_cases, Huid.
    repeat case_match; simpl; apply invocations_log_invoke.
  - intros resp. rewrite execute_query_cases.
    repeat case_match; simpl; intros [= <-]. done.
  - intros uid Huid Hrun.
    destruct (execute_query_completes request w uid Huid Hrun) as [w' Hq].
    rewrite Hq. by eexists.
Qed.

(** C10. A request that omits the user id is served as one that names
    ["default_user"]: same thread, same input, same answer, and when the
    turn runs to its end the response reports ["default_user"]. *)
Theorem C10_omitted_user_id_defaults (q : string) (w : world) :
  let request := QueryRequest.parse q Omitted in
  QueryRequest.user_id request = Some "default_user"
  ∧ execute_query E request w
    = execute_query E (QueryRequest.parse q (Given "default_user")) w
  ∧ invocations (trace ((execute_query E request w).2))
    = invocations (trace w)
      ++ [(Some "default_user", enhanced_input "default_user" q)]
  ∧ (completes (query_run E request w) = true →
     ∃ resp w',
       execute_query E request w = (Http200 resp, w')
       ∧ QueryResponse.user_id resp = "default_user").
Proof.
  intros request. subst request. split_and!; [done|done| |].
  - rewrite execute_query_cases.
    cbn [QueryRequest.user_id QueryRequest.query QueryRequest.parse
         opt_str default].
    repeat case_match; simpl; apply invocations_log_invoke.
  - intros Hrun.
    destruct (execute_query_completes (QueryRequest.parse q Omitted) w
                "default_user" eq_refl Hrun)
      as [w' Hq].
    rewrite Hq. by eexists _, _.
Qed.

(** *** The reset handler and the preference store *)

(** C7 (amended). A reset always succeeds and, whatever user id the
    request carries, drops the one shared engine instance, so that the
    next turn starts from a new agent; it answers with the user id of the
    request when that is a non-empty string and with a generated id
    otherwise, and with a time stamp; the preference store and the log
    of effects are left as they were. *)
Theorem C7_reset_is_global (request : ConversationClearRequest.t)
    (w : world) :
  ∃ resp w',
    clear_conversation E request w = (Http200 resp, w')
    ∧ global_agent w' = None
    ∧ current_agent w' = Agent []
    ∧ user_preferences w' = user_preferences w
    ∧ db_fault w' = db_fault w
    ∧ trace w' = trace w
    ∧ (∀ u, ConversationClearRequest.user_id request = Some u → u ≠ "" →
         ClearResponse.new_user_id resp = u)
    ∧ (ConversationClearRequest.user_id request = None
       ∨ ConversationClearRequest.user_id request = Some "" →
       ClearResponse.new_user_id resp = uuid4 E (entropy w))
    ∧ ClearResponse.timestamp resp = isoformat E (clock w).
Proof.
  unfold clear_conversation, clear_conversation_body, new_uuid,
    now_isoformat.
  destruct request as [[u|]]; run_monad.
  - unfold str_truthy. case_bool_decide as Hu; simpl.
    + eexists _, _. split; [done|]. split_and!; try done.
      * intros u' [= <-] _. done.
      * intros [H|H]; [discriminate|]. injection H as ->. by destruct Hu.
    + eexists _, _. split; [done|]. split_and!; try done.
      intros u' [= <-] Hne. by destruct Hu.
  - eexists _, _. split; [done|]. split_and!; done.
Qed.

Lemma str_truthy_true (s : string) : str_truthy s = true ↔ s ≠ "".
Proof. unfold str_truthy. by rewrite bool_decide_eq_true. Qed.

(** C5.  An upsert whose user id or priority key is empty fails as
    [InvalidArgument] with the world as it was: no statement reaches the
    store and no row changes; the handler reports the failure.  A write
    that succeeds had a non-empty user, key and value, and such a write
    does succeed when the store is available. *)
Theorem C5_empty_user_or_key_is_invalid (request : PreferenceRequest.t)
    (w : world) :
  (PreferenceRequest.user_id request = ""
   ∨ PreferenceRequest.priority_key request = "" →
   ∃ msg,
     update_user_priority E
       (PreferenceRequest.user_id request)
       (PreferenceRequest.priority_key request)
       (PreferenceRequest.priority_value request)
       (PreferenceRequest.context request)
       (PreferenceRequest.feedback_text request)
       (PreferenceRequest.source_query request) w
     = (Raise (Exn InvalidArgument msg), w)
     ∧ save_preference E request w
       = (HTTPException 500 ("Failed to save preference: " +:+ msg), w))
  ∧ (∀ resp w', save_preference E request w = (Http200 resp, w') →
       PreferenceRequest.user_id request ≠ ""
       ∧ PreferenceRequest.priority_key request ≠ ""
       ∧ PreferenceRequest.priority_value request ≠ "")
  ∧ (PreferenceRequest.user_id request ≠ "" →
     PreferenceRequest.priority_key request ≠ "" →
     PreferenceRequest.priority_value request ≠ "" →
     db_fault w = None →
     ∃ resp w', save_preference E request w = (Http200 resp, w')
                ∧ storage_ops (trace w') ≠ storage_ops (trace w)).
Proof.
  destruct request as [u k v c f q].
  unfold save_preference, save_preference_body, update_user_priority,
    get_user_priorities, db_execute, now_isoformat.
  cbn [PreferenceRequest.user_id PreferenceRequest.priority_key
       PreferenceRequest.priority_value PreferenceRequest.context
       PreferenceRequest.feedback_text PreferenceRequest.source_query].
  split_and!.
  - intros Hempty.
    assert (negb (str_truthy u) || negb (str_truthy k)
            || negb (str_truthy v) = true) as ->.
    { destruct Hempty as [-> | ->]; simpl; [done|].
      by destruct (str_truthy u). }
    run_monad. by eexists.
  - intros resp w'.
    destruct (str_truthy u) eqn:Hu, (str_truthy k) eqn:Hk,
      (str_truthy v) eqn:Hv; run_monad; try done.
    intros _. by rewrite <- !str_truthy_true.
  - intros Hu Hk Hv Hdb.
    apply str_truthy_true in Hu, Hk, Hv. rewrite Hu, Hk, Hv.
    run_monad. rewrite Hdb. simpl. rewrite Hdb. simpl.
    eexists _, _. split; [done|]. simpl.
    unfold storage_ops. rewrite !omap_app. simpl.
    intros Heq. apply (f_equal length) in Heq.
    rewrite !length_app in Heq. simpl in Heq. lia.
Qed.

Lemma rows_of_rows_not_of (user : string) (t : list pref_row) :
  rows_of user (rows_not_of user t) = [].
Proof.
  unfold rows_of, rows_not_of. induction t as [|r t IH]; [done|].
  rewrite (filter_cons (λ r, row_user_id r ≠ user)).
  destruct (decide (row_user_id r ≠ user)) as [Hne|Heq]; [|done].
  rewrite filter_cons. by destruct (decide (row_user_id r = user)).
Qed.

Lemma rows_not_of_other (user other : string) (t : list pref_row) :
  other ≠ user → rows_of other (rows_not_of user t) = rows_of other t.
Proof.
  intros Hne. unfold rows_of, rows_not_of.
  induction t as [|r t IH]; [done|].
  rewrite (filter_cons (λ r, row_user_id r ≠ user)).
  rewrite (filter_cons (λ r, row_user_id r = other) r t).
  destruct (decide (row_user_id r ≠ user)) as [H1|H1].
  - rewrite filter_cons. destruct (decide (row_user_id r = other));
      by rewrite IH.
  - destruct (decide (row_user_id r = other)) as [H2|H2]; [|done].
    destruct H1. congruence.
Qed.

Lemma rows_not_of_idem (user : string) (t : list pref_row) :
  rows_not_of user (rows_not_of user t) = rows_not_of user t.
Proof.
  unfold rows_not_of. induction t as [|r t IH]; [done|].
  rewrite filter_cons.
  destruct (decide (row_user_id r ≠ user)) as [H|H]; [|done].
  rewrite filter_cons. destruct (decide (row_user_id r ≠ user)); [|done].
  by rewrite IH.
Qed.

Lemma delete_preferences_available (user_id : string) (w : world) :
  db_fault w = None →
  delete_preferences user_id w
  = (Http200
       (DeleteResponse.Build
          ("Deleted "
             +:+ pretty (length (rows_of user_id (user_preferences w)))
             +:+ " preferences for user " +:+ user_id)
          user_id (length (rows_of user_id (user_preferences w)))),
     set_preferences (rows_not_of user_id (user_preferences w))
                     (log (Storage (DbDelete user_id)) w)).
Proof.
  intros Hdb.
  unfold delete_preferences, delete_preferences_body, db_execute.
  run_monad. by rewrite Hdb.
Qed.

(** C6.  With the store available, deleting the preferences of a user
    who has N rows removes these N rows (and no row of another user) and
    answers with the count N; doing it again at once answers with the
    count 0, and that answer is a success like the first. *)
Theorem C6_delete_all_counts (user_id : string) (w : world) :
  db_fault w = None →
  ∃ r1 w1 r2 w2,
    delete_preferences user_id w = (Http200 r1, w1)
    ∧ DeleteResponse.deleted_count r1
      = length (rows_of user_id (user_preferences w))
    ∧ rows_of user_id (user_preferences w1) = []
    ∧ (∀ other, other ≠ user_id →
         rows_of other (user_preferences w1)
         = rows_of other (user_preferences w))
    ∧ delete_preferences user_id w1 = (Http200 r2, w2)
    ∧ DeleteResponse.deleted_count r2 = 0
    ∧ user_preferences w2 = user_preferences w1.
Proof.
  intros Hdb.
  eexists _, _, _, _.
  split; [by apply delete_preferences_available|].
  cbn [DeleteResponse.deleted_count].
  split; [done|].
  split; [simpl; apply rows_of_rows_not_of|].
  split; [intros other Hne; simpl; by apply rows_not_of_other|].
  split; [by apply delete_preferences_available|].
  simpl. rewrite rows_of_rows_not_of, rows_not_of_idem. done.
Qed.

(** *** The WebSocket loop *)

Lemma emit_nil (w : world) : emit [] w = w.
Proof. destruct w. unfold emit. simpl. by rewrite app_nil_r. Qed.

Lemma emit_emit (fs gs : list frame) (w : world) :
  emit gs (emit fs w) = emit (fs ++ gs) w.
Proof. unfold emit. simpl. by rewrite fmap_app, app_assoc. Qed.

Lemma latest_cons {A} (x : A) (l : list A) (o : option A) :
  latest (x :: l) o = latest l (Some x).
Proof. apply (latest_app [x] l o). Qed.

(** Lines 337-345: every tool call is shown, the latest SQL call wins. *)
Lemma for_in_tool_calls (tcs : list tool_call) (sql : option string)
    (w : world) :
  for_in tcs ws_tool_call sql w
  = (Ret (latest (tool_call_query <$> filter (λ tc, is_sql_call tc) tcs)
                 sql),
     emit ((λ tc, FToolCall (tc_name tc) (tool_call_args tc)) <$> tcs) w).
Proof.
  revert sql w. induction tcs as [|tc tcs IH]; intros sql w.
  - simpl. by rewrite emit_nil.
  - simpl. unfold ws_tool_call at 1. run_monad. rewrite IH.
    change (log (Send ?f) w) with (emit [f] w). rewrite emit_emit.
    rewrite filter_cons. simpl.
    destruct (is_sql_call tc); simpl; [by rewrite latest_cons|done].
Qed.

(** Lines 332-359 for one event. *)
Lemma ws_event_cases (s : option string * option string) (ev : event)
    (w : world) :
  ws_event s ev w
  = match messages ev with
    | None => (Ret s, w)
    | Some l =>
        match last l with
        | None => (Raise (Exn IndexError "list index out of range"), w)
        | Some msg => (Ret (ws_msg s msg), emit (frames_of msg) w)
        end
    end.
Proof.
  unfold ws_event. destruct (messages ev) as [l|]; [|done].
  run_monad. destruct (last l) as [msg|]; [|done]. simpl.
  unfold ws_msg, frames_of, sql_calls_of, raw_text.
  destruct (tool_calls msg) as [tcs|]; simpl.
  - rewrite for_in_tool_calls. simpl.
    destruct (str_content msg) as [c|]; simpl.
    + destruct (name_is_sql msg); simpl.
      * change (log (Send ?f) ?w) with (emit [f] w). by rewrite emit_emit.
      * destruct (name_is_blank msg); simpl; [|by rewrite app_nil_r].
        change (log (Send ?f) ?w) with (emit [f] w). by rewrite emit_emit.
    + by rewrite app_nil_r.
  - destruct (str_content msg) as [c|]; simpl; [|by rewrite emit_nil].
    destruct (name_is_sql msg); simpl; [done|].
    destruct (name_is_blank msg); simpl; [done|by rewrite emit_nil].
Qed.

(** The event loop of the channel: the frames of the observed messages
    are written in order, up to the first ill-formed event. *)
Lemma for_in_ws_events (evs : list event)
    (s : option string * option string) (w : world) :
  for_in evs ws_event s w
  = (if forallb well_formed evs then Ret (foldl ws_msg s (observed evs))
     else Raise (Exn IndexError "list index out of range"),
     emit (progress_frames (observed (good_prefix evs))) w).
Proof.
  revert s w. induction evs as [|ev evs IH]; intros s w.
  - simpl. by rewrite emit_nil.
  - simpl. unfold bind. rewrite ws_event_cases. unfold well_formed.
    destruct ev as [[l|]]; simpl.
    + destruct (last l) as [msg|] eqn:Hl.
      * destruct l as [|m0 l0]; [done|].
        rewrite IH. simpl. rewrite Hl. simpl.
        unfold progress_frames. simpl. by rewrite emit_emit.
      * apply last_None in Hl. subst l. simpl. by rewrite emit_nil.
    + apply IH.
Qed.

Lemma foldl_ws_msg_sql (msgs : list message)
    (s : option string * option string) :
  (foldl ws_msg s msgs).1
  = latest (tool_call_query <$> sql_invocations msgs) (s.1).
Proof.
  induction msgs as [|m msgs IH] using rev_ind; [done|].
  unfold sql_invocations in *.
  rewrite foldl_app, bind_app, fmap_app, latest_app. simpl.
  by rewrite IH, app_nil_r.
Qed.

(** Lines 309-372: one utterance never raises, and leaves the world
    [after_turn]. *)
Lemma ws_turn_cases (user_id : string) (query : pyval) (w : world) :
  ws_turn E user_id query w = (Ret tt, after_turn E user_id query w).
Proof.
  unfold ws_turn, after_turn, turn_progress, turn_terminal, completes,
    channel_run, after_invoke, current_agent, get_or_create_agent, stream,
    for_events, now_isoformat.
  run_monad.
  destruct (global_agent w) as [a|]; simpl; rewrite for_in_ws_events;
    (match goal with
     | |- context [forallb well_formed ?evs] =>
         destruct (forallb well_formed evs); simpl; [|done]
     end);
    (match goal with
     | |- context [raised ?r] => destruct (raised r); simpl; [done|]
     end);
    by rewrite foldl_ws_msg_sql.
Qed.

Lemma frames_of_progress (msg : message) :
  Forall (λ f, is_progress f = true) (frames_of msg).
Proof.
  unfold frames_of. apply Forall_app. split.
  - apply Forall_fmap, Forall_true. done.
  - destruct (str_content msg); [|constructor].
    destruct (name_is_sql msg); [by repeat constructor|].
    destruct (name_is_blank msg); by repeat constructor.
Qed.

Lemma progress_frames_progress (msgs : list message) :
  Forall (λ f, is_progress f = true) (progress_frames msgs).
Proof.
  unfold progress_frames. induction msgs as [|m msgs IH]; [constructor|].
  simpl. apply Forall_app. split; [apply frames_of_progress|done].
Qed.

Lemma progress_not_terminal (fs : list frame) :
  Forall (λ f, is_progress f = true) fs →
  filter (λ f, is_terminal f) fs = [].
Proof.
  induction 1 as [|f fs Hf _ IH]; [done|].
  rewrite filter_cons, IH. by destruct f.
Qed.

Lemma turn_terminal_cases (user_id : string) (query : pyval) (w : world) :
  let r := channel_run E user_id query w in
  (completes r = true →
   turn_terminal E user_id query w
   = FCompleted
       (latest (tool_call_query <$> sql_invocations (observed (yielded r)))
               None)
       (isoformat E (clock w)))
  ∧ (completes r = false → ∃ msg, turn_terminal E user_id query w = FError msg).
Proof.
  intros r. unfold turn_terminal, completes. fold r.
  destruct (forallb well_formed (yielded r)); simpl.
  - destruct (raised r); split; try done. intros _. by eexists.
  - split; [done|]. intros _. by eexists.
Qed.

Lemma after_turn_trace (user_id : string) (query : pyval) (w : world) :
  trace (after_turn E user_id query w)
  = trace w
    ++ [Send (FProcessing user_id query);
        Invoke (Some user_id) (enhanced_input user_id (py_str query))]
    ++ (Send <$> turn_progress E user_id query w)
    ++ [Send (turn_terminal E user_id query w)].
Proof.
  unfold after_turn.
  destruct (completes (channel_run E user_id query w)); simpl;
    by rewrite <- !app_assoc.
Qed.

Lemma ws_loop_turn (user_id : string) (query : pyval)
    (rest : list inbound) (w : world) :
  py_truthy query = true →
  ws_loop E user_id (Request (Some query) :: rest) w
  = ws_loop E user_id rest (after_turn E user_id query w).
Proof.
  intros Hq. simpl. rewrite Hq. simpl. unfold bind.
  by rewrite ws_turn_cases.
Qed.

(** C3.  For a non-empty utterance the channel shows, in this order: one
    [processing] frame, written before the engine is invoked; the
    [tool_call], [raw_result] and [message] frames of the observed
    messages, in the order of the events; and one terminal frame, which
    is [completed] with the extracted SQL text (possibly none) and a time
    stamp when the turn runs to its end, and [error] otherwise.  No other
    frame of the turn is terminal, and the loop goes on to the next
    inbound frame. *)
Theorem C3_frames_of_one_turn (user_id : string) (query : pyval)
    (rest : list inbound) (w : world) :
  py_truthy query = true →
  let r := channel_run E user_id query w in
  ∃ progress terminal w',
    ws_turn E user_id query w = (Ret tt, w')
    ∧ ws_loop E user_id (Request (Some query) :: rest) w
      = ws_loop E user_id rest w'
    ∧ trace w'
      = trace w
        ++ [Send (FProcessing user_id query);
            Invoke (Some user_id) (enhanced_input user_id (py_str query))]
        ++ (Send <$> progress) ++ [Send terminal]
    ∧ progress = progress_frames (observed (good_prefix (yielded r)))
    ∧ Forall (λ f, is_progress f = true) progress
    ∧ (completes r = true →
       terminal
       = FCompleted
           (latest (tool_call_query
                      <$> sql_invocations (observed (yielded r))) None)
           (isoformat E (clock w)))
    ∧ (completes r = false → ∃ msg, terminal = FError msg)
    ∧ filter (λ f, is_terminal f)
             (FProcessing user_id query :: progress ++ [terminal])
      = [terminal].
Proof.
  intros Hq r.
  exists (turn_progress E user_id query w),
         (turn_terminal E user_id query w),
         (after_turn E user_id query w).
  pose proof (progress_frames_progress
                (observed (good_prefix (yielded r)))) as Hprog.
  destruct (turn_terminal_cases user_id query w) as [Hok Hfail].
  fold r in Hok, Hfail.
  split_and!; try done.
  - apply ws_turn_cases.
  - by apply ws_loop_turn.
  - apply after_turn_trace.
  - rewrite filter_cons. simpl. rewrite filter_app.
    unfold turn_progress. fold r. rewrite (progress_not_terminal _ Hprog).
    simpl. rewrite filter_cons, filter_nil.
    destruct (completes r).
    + by rewrite Hok.
    + destruct Hfail as [msg ->]; done.
Qed.

Lemma sent_frames_snoc (t : list effect) (f : frame) :
  sent_frames (t ++ [Send f]) = sent_frames t ++ [f].
Proof. unfold sent_frames. by rewrite omap_app. Qed.


(** C9 (amended).  No exception leaves the WebSocket handler.  A failure
    while a turn is served (the engine raises, or an event has no
    message) ends the turn with an [error] frame and the loop goes on to
    the next inbound frame.  An inbound frame that is not a JSON object
    is answered with one [error] frame, after which the handler returns
    and the frames behind it are not served. *)
Theorem C9_failures_on_the_channel (user_id : string) (w : world) :
  (∀ frames, ∃ w', websocket_endpoint E user_id frames w = (Ret tt, w'))
  ∧ (∀ query rest,
       py_truthy query = true →
       completes (channel_run E user_id query w) = false →
       ∃ msg w',
         ws_turn E user_id query w = (Ret tt, w')
         ∧ last (sent_frames (trace w')) = Some (FError msg)
         ∧ ws_loop E user_id (Request (Some query) :: rest) w
           = ws_loop E user_id rest w')
  ∧ (∀ err rest,
       websocket_endpoint E user_id (BadJson err :: rest) w
       = (Ret tt, log (Send (FError err)) w)
       ∧ websocket_endpoint E user_id (NotADict err :: rest) w
         = (Ret tt, log (Send (FError err)) w)).
Proof.
  split_and!.
  - intros frames. unfold websocket_endpoint, try_except.
    destruct (ws_loop E user_id frames w) as [[[]|e] w1]; [by eexists|].
    destruct (exn_class_of e); run_monad; by eexists.
  - intros query rest Hq Hrun.
    destruct (turn_terminal_cases user_id query w) as [_ Hfail].
    destruct (Hfail Hrun) as [msg Hmsg].
    exists msg, (after_turn E user_id query w). split_and!.
    + apply ws_turn_cases.
    + rewrite after_turn_trace, Hmsg, !app_assoc, sent_frames_snoc.
      apply last_snoc.
    + by apply ws_loop_turn.
  - intros err rest. split; done.
Qed.

End Properties.

(** ** The properties at sample inputs *)

Lemma C1_witness :
  ∃ resp w',
    execute_query (scripted retry_run) (QueryRequest.parse "how many" Omitted)
                  boot = (Http200 resp, w')
    ∧ QueryResponse.sql_query resp = Some "SELECT 2".
Proof.
  apply (C1_sql_text_is_latest_invocation (scripted retry_run)
           (QueryRequest.parse "how many" Omitted) boot "default_user"
           [ToolCall (Some "sql_db_query") (Some {[ "query" := "SELECT 1" ]})]
           (ToolCall (Some "sql_db_query") (Some {[ "query" := "SELECT 2" ]}))
           {[ "query" := "SELECT 2" ]} "SELECT 2"); reflexivity.
Defined.

Lemma C2_witness :
  ∃ resp w',
    execute_query (scripted retry_run) (QueryRequest.parse "how many" Omitted)
                  boot = (Http200 resp, w')
    ∧ QueryResponse.summary resp = "The answer is 2".
Proof.
  destruct (C2_summary_or_fallback (scripted retry_run)
              (QueryRequest.parse "how many" Omitted) boot "default_user"
              eq_refl eq_refl) as (resp & w' & Hq & _ & Hlast & _).
  exists resp, w'. split; [exact Hq|].
  apply (Hlast [""; ""] "The answer is 2"); [|discriminate].
  reflexivity.
Defined.

(** The claim of C2 as it stands, that the summary is the text of the last
    message no tool authored whenever there is one, fails on a turn whose
    last such message is empty. *)
Lemma C2_counterexample :
  ¬ (∀ (E : env) (request : QueryRequest.t) (w : world)
       (resp : QueryResponse.t) (w' : world) (before : list string)
       (s : string),
       execute_query E request w = (Http200 resp, w') →
       summary_texts (observed (yielded (query_run E request w)))
         = before ++ [s] →
       QueryResponse.summary resp = s).
Proof.
  intros H.
  specialize (H (scripted silent_run) (QueryRequest.parse "how many" Omitted)
                boot _ _ [] "" eq_refl eq_refl).
  discriminate H.
Qed.

Lemma C3_witness :
  ∃ w',
    ws_turn (scripted retry_run) "u" (PyStr "how many") boot = (Ret tt, w')
    ∧ kind_of <$> sent_frames (trace w')
      = [KProcessing; KToolCall; KMessage; KRawResult; KToolCall; KMessage;
         KRawResult; KMessage; KCompleted].
Proof.
  destruct (C3_frames_of_one_turn (scripted retry_run) "u" (PyStr "how many")
              [] boot eq_refl)
    as (progress & terminal & w' & Hturn & _ & Htrace & Hprogress & _
        & Hdone & _).
  exists w'. split; [exact Hturn|].
  rewrite Htrace, Hprogress, (Hdone eq_refl). reflexivity.
Defined.


Lemma C5_witness :
  (∃ msg,
     save_preference (scripted retry_run)
       (PreferenceRequest.Build "" "cost" "low" None None None) stocked
     = (HTTPException 500 ("Failed to save preference: " +:+ msg), stocked))
  ∧ (∃ resp w',
       save_preference (scripted retry_run)
         (PreferenceRequest.Build "alice" "cost" "high" None None None) stocked
       = (Http200 resp, w')).
Proof.
  split.
  - destruct (C5_empty_user_or_key_is_invalid (scripted retry_run)
                (PreferenceRequest.Build "" "cost" "low" None None None)
                stocked) as (Hbad & _ & _).
    destruct (Hbad (or_introl eq_refl)) as (msg & _ & Hsave).
    exists msg. exact Hsave.
  - destruct (C5_empty_user_or_key_is_invalid (scripted retry_run)
                (PreferenceRequest.Build "alice" "cost" "high" None None None)
                stocked) as (_ & _ & Hgood).
    destruct Hgood as (resp & w' & Hsave & _);
      [discriminate | discriminate | discriminate | reflexivity |].
    exists resp, w'. exact Hsave.
Defined.

Lemma C6_witness :
  db_fault stocked = None
  ∧ ∃ r1 w1 r2 w2,
      delete_preferences "alice" stocked = (Http200 r1, w1)
      ∧ DeleteResponse.deleted_count r1 = 2
      ∧ delete_preferences "alice" w1 = (Http200 r2, w2)
      ∧ DeleteResponse.deleted_count r2 = 0.
Proof.
  split; [reflexivity|].
  destruct (C6_delete_all_counts "alice" stocked eq_refl)
    as (r1 & w1 & r2 & w2 & H1 & Hn & _ & _ & H2 & Hz & _).
  exists r1, w1, r2, w2. split_and!; [exact H1|exact Hn|exact H2|exact Hz].
Defined.

Lemma C7_witness :
  ∃ resp w',
    clear_conversation (scripted retry_run)
      (ConversationClearRequest.parse (Given "alice")) stocked
    = (Http200 resp, w')
    ∧ global_agent w' = None
    ∧ user_preferences w' = user_preferences stocked
    ∧ ClearResponse.new_user_id resp = "alice".
Proof.
  destruct (C7_reset_is_global (scripted retry_run)
              (ConversationClearRequest.parse (Given "alice")) stocked)
    as (resp & w' & Hclear & Hagent & _ & Hprefs & _ & _ & Hecho & _).
  exists resp, w'. split_and!; [exact Hclear|exact Hagent|exact Hprefs|].
  apply (Hecho "alice"); [reflexivity|discriminate].
Defined.

(** The claim of C7 as it stands, that a user id in the request is echoed,
    fails for the empty string: it is answered with a generated id. *)
Lemma C7_counterexample :
  ¬ (∀ (E : env) (request : ConversationClearRequest.t) (w : world)
       (u : string),
       ConversationClearRequest.user_id request = Some u →
       ∃ resp w',
         clear_conversation E request w = (Http200 resp, w')
         ∧ ClearResponse.new_user_id resp = u).
Proof.
  intros H.
  destruct (H (scripted retry_run)
              (ConversationClearRequest.parse (Given "")) boot "" eq_refl)
    as (resp & w' & Hclear & Hecho).
  vm_compute in Hclear. injection Hclear as <- _.
  discriminate Hecho.
Qed.

Lemma C8_witness :
  invocations
    (trace ((execute_query (scripted retry_run)
               (QueryRequest.parse "how many" (Given "alice")) boot).2))
  = [(Some "alice", "[User ID: alice]" +:+ String "010"%char "how many")]
  ∧ ∃ resp,
      (execute_query (scripted retry_run)
         (QueryRequest.parse "how many" (Given "alice")) boot).1
      = Http200 resp
      ∧ QueryResponse.query resp = "how many".
Proof.
  destruct (C8_engine_input_is_prefixed_utterance (scripted retry_run)
              (QueryRequest.parse "how many" (Given "alice")) boot)
    as (Hin & _ & _ & Hok).
  split.
  - apply (Hin "alice"). reflexivity.
  - apply (Hok "alice"); reflexivity.
Defined.

Lemma C9_witness :
  ∃ msg w',
    ws_turn (scripted broken_run) "u" (PyStr "how many") boot = (Ret tt, w')
    ∧ last (sent_frames (trace w')) = Some (FError msg)
    ∧ ws_loop (scripted broken_run) "u"
              [Request (Some (PyStr "how many")); Request None] boot
      = ws_loop (scripted broken_run) "u" [Request None] w'.
Proof.
  destruct (C9_failures_on_the_channel (scripted broken_run) "u" boot)
    as (_ & Hturn & _).
  apply (Hturn (PyStr "how many") [Request None]); reflexivity.
Defined.

(** The claim of C9 as it stands, that the channel stays open after a
    malformed inbound frame, fails: the utterance that follows the
    malformed frame is never acknowledged. *)
Lemma C9_counterexample :
  ¬ (∀ (E : env) (user_id err : string) (query : pyval) (w : world),
       py_truthy query = true →
       FProcessing user_id query
       ∈ sent_frames
           (trace ((websocket_endpoint E user_id
                      [BadJson err; Request (Some query)] w).2))).
Proof.
  intros H.
  specialize (H (scripted retry_run) "u" "Expecting value" (PyStr "how many")
                boot eq_refl).
  vm_compute in H. apply list_elem_of_singleton in H. discriminate H.
Qed.

Lemma C10_witness :
  ∃ resp w',
    execute_query (scripted retry_run) (QueryRequest.parse "how many" Omitted)
                  boot = (Http200 resp, w')
    ∧ QueryResponse.user_id resp = "default_user".
Proof.
  destruct (C10_omitted_user_id_defaults (scripted retry_run) "how many" boot)
    as (_ & _ & _ & Hok).
  apply Hok. reflexivity.
Defined.

(** ** Further properties of the handlers *)

Section Coverage.
Variable E : env.

(** *** POST /query *)

(** X2.  What the 500 says: the engine's own message when the engine raised,
    and the index error when an event came with an empty message list,
    which takes precedence because it stops the loop before the engine
    gets to raise. *)
Theorem execute_query_failure_detail (request : QueryRequest.t) (w : world) :
  let r := query_run E request w in
  (forallb well_formed (yielded r) = false →
   ∃ w', execute_query E request w
         = (HTTPException 500
              "Query execution failed: list index out of range", w'))
  ∧ (∀ msg, forallb well_formed (yielded r) = true → raised r = Some msg →
       ∃ w', execute_query E request w
             = (HTTPException 500 ("Query execution failed: " +:+ msg), w')).
Proof.
  intros r. split.
  - intros Hwf. rewrite execute_query_cases. fold r. rewrite Hwf.
    by eexists.
  - intros msg Hwf Hraised. rewrite execute_query_cases. fold r.
    rewrite Hwf, Hraised. by eexists.
Qed.

(** X3.  The raw result of the response is the text of the latest answer of the
    designated SQL tool. *)
Theorem execute_query_raw_result_is_latest (request : QueryRequest.t)
    (w : world) (uid : string) (earlier : list string) (text : string) :
  QueryRequest.user_id request = Some uid →
  completes (query_run E request w) = true →
  raw_results (observed (yielded (query_run E request w)))
    = earlier ++ [text] →
  ∃ resp w',
    execute_query E request w = (Http200 resp, w')
    ∧ QueryResponse.raw_result resp = Some text.
Proof.
  intros Huid Hrun Hraw.
  destruct (execute_query_completes E request w uid Huid Hrun) as [w' Hq].
  eexists _, w'. split; [exact Hq|]. cbn [QueryResponse.raw_result].
  rewrite Hraw. unfold latest. by rewrite last_snoc.
Qed.

(** X4.  When the latest invocation of the SQL tool has no [args] or no [query]
    argument, the SQL text of the response is the empty string, not
    absent. *)
Theorem execute_query_sql_without_query_arg (request : QueryRequest.t)
    (w : world) (uid : string) (earlier : list tool_call) (tc : tool_call) :
  QueryRequest.user_id request = Some uid →
  completes (query_run E request w) = true →
  sql_invocations (observed (yielded (query_run E request w)))
    = earlier ++ [tc] →
  tool_call_args tc !! "query" = None →
  ∃ resp w',
    execute_query E request w = (Http200 resp, w')
    ∧ QueryResponse.sql_query resp = Some "".
Proof.
  intros Huid Hrun Hcalls Hargs.
  destruct (execute_query_completes E request w uid Huid Hrun) as [w' Hq].
  eexists _, w'. split; [exact Hq|]. cbn [QueryResponse.sql_query].
  rewrite Hcalls, fmap_app. unfold latest.
  change (tool_call_query <$> [tc]) with [tool_call_query tc].
  rewrite last_snoc. unfold tool_call_query. by rewrite Hargs.
Qed.

(** X5.  A request whose user id is an explicit null is never answered with
    200, but the engine is run all the same, on thread [None] and with the
    prefix "[User ID: None]". *)
Theorem execute_query_null_user_id (q : string) (w : world) :
  let out := execute_query E (QueryRequest.parse q Null) w in
  (∃ detail, out.1 = HTTPException 500 detail)
  ∧ invocations (trace (out.2))
    = invocations (trace w) ++ [(None, enhanced_input "None" q)].
Proof.
  intros out. subst out. rewrite execute_query_cases.
  cbn [QueryRequest.user_id QueryRequest.query QueryRequest.parse opt_str
       default].
  repeat case_match; simpl; (split; [by eexists|]);
    unfold invocations; by rewrite omap_app.
Qed.

(** *** WebSocket /ws/{user_id} *)

Lemma sent_frames_app (t1 t2 : list effect) :
  sent_frames (t1 ++ t2) = sent_frames t1 ++ sent_frames t2.
Proof. unfold sent_frames. apply omap_app. Qed.

Lemma sent_frames_sends (fs : list frame) : sent_frames (Send <$> fs) = fs.
Proof.
  unfold sent_frames. induction fs as [|f fs IH]; [done|].
  simpl in *. by f_equal.
Qed.

Lemma invocations_sends (fs : list frame) : invocations (Send <$> fs) = [].
Proof. unfold invocations. induction fs as [|f fs IH]; [done|]. done. Qed.

(** The frames one turn adds to the channel. *)
Lemma after_turn_frames (user_id : string) (query : pyval) (w : world) :
  sent_frames (trace (after_turn E user_id query w))
  = sent_frames (trace w)
    ++ FProcessing user_id query
       :: turn_progress E user_id query w
    ++ [turn_terminal E user_id query w].
Proof.
  rewrite after_turn_trace, !sent_frames_app, sent_frames_sends. done.
Qed.

Lemma after_turn_invocations (user_id : string) (query : pyval)
    (w : world) :
  invocations (trace (after_turn E user_id query w))
  = invocations (trace w)
    ++ [(Some user_id, enhanced_input user_id (py_str query))].
Proof.
  rewrite after_turn_trace. unfold invocations at 1.
  rewrite !omap_app. fold (invocations (trace w)).
  fold (invocations (Send <$> turn_progress E user_id query w)).
  rewrite invocations_sends. done.
Qed.

Lemma turn_terminal_closes (user_id : string) (query : pyval) (w : world) :
  closes_utterance (turn_terminal E user_id query w) = true
  ∧ message_texts [turn_terminal E user_id query w] = []
  ∧ raw_result_texts [turn_terminal E user_id query w] = []
  ∧ shown_tool_calls [turn_terminal E user_id query w] = [].
Proof.
  unfold turn_terminal. by repeat case_match.
Qed.

(** The loop, case by case: it always ends by raising, with the world the
    handled frames leave. *)
Lemma ws_loop_cases (user_id : string) (frames : list inbound) (w : world) :
  ws_loop E user_id frames w
  = (Raise (stops_with frames), after_frames E user_id frames w).
Proof.
  revert w. induction frames as [|[err|err|q] rest IH]; intros w; try done.
  simpl. destruct (py_truthy (default (PyStr "") q)); simpl.
  - unfold bind. rewrite ws_turn_cases. apply IH.
  - run_monad. apply IH.
Qed.

Lemma websocket_endpoint_cases (user_id : string) (frames : list inbound)
    (w : world) :
  websocket_endpoint E user_id frames w
  = (Ret tt,
     match exn_class_of (stops_with frames) with
     | WebSocketDisconnect => after_frames E user_id frames w
     | _ => log (Send (FError (exn_str (stops_with frames))))
                (after_frames E user_id frames w)
     end).
Proof.
  unfold websocket_endpoint, try_except. rewrite ws_loop_cases.
  by destruct (exn_class_of (stops_with frames)).
Qed.

Lemma omap_tool_call_frames {A} (g : frame → option A) (tcs : list tool_call)
    (h : tool_call → option A) :
  (∀ tc, g (FToolCall (tc_name tc) (tool_call_args tc)) = h tc) →
  omap g ((λ tc, FToolCall (tc_name tc) (tool_call_args tc)) <$> tcs)
  = omap h tcs.
Proof.
  intros Hg. induction tcs as [|tc tcs IH]; [done|].
  simpl. rewrite Hg. destruct (h tc); [f_equal|]; exact IH.
Qed.

Lemma omap_none {A B} (l : list A) : omap (λ _ : A, @None B) l = [].
Proof. by induction l. Qed.

Lemma omap_some {A B} (f : A → B) (l : list A) :
  omap (λ x, Some (f x)) l = f <$> l.
Proof. induction l as [|x l IH]; [done|]. simpl. by f_equal. Qed.

(** What the frames of one message carry. *)
Lemma frames_of_texts (msg : message) :
  message_texts (frames_of msg) = option_list (summary_text msg)
  ∧ raw_result_texts (frames_of msg) = option_list (raw_text msg)
  ∧ shown_tool_calls (frames_of msg)
    = (λ tc, (tc_name tc, tool_call_args tc)) <$> default [] (tool_calls msg).
Proof.
  unfold frames_of, message_texts, raw_result_texts, shown_tool_calls,
    summary_text, raw_text.
  rewrite !omap_app.
  rewrite (omap_tool_call_frames _ _ (λ _, None)) by done.
  rewrite (omap_tool_call_frames _ _ (λ _, None)) by done.
  rewrite (omap_tool_call_frames _ _
             (λ tc, Some (tc_name tc, tool_call_args tc))) by done.
  rewrite !omap_none, omap_some.
  destruct (str_content msg) as [c|]; simpl; [|by rewrite app_nil_r].
  destruct (name_is_sql msg) eqn:Hsql; simpl.
  - by rewrite app_nil_r.
  - destruct (name_is_blank msg); simpl; by rewrite app_nil_r.
Qed.

Lemma progress_frames_texts (msgs : list message) :
  message_texts (progress_frames msgs) = summary_texts msgs
  ∧ raw_result_texts (progress_frames msgs) = raw_results msgs
  ∧ shown_tool_calls (progress_frames msgs)
    = (λ tc, (tc_name tc, tool_call_args tc)) <$> tool_calls_of msgs.
Proof.
  unfold progress_frames, summary_texts, raw_results, tool_calls_of.
  induction msgs as [|m msgs (IH1 & IH2 & IH3)]; [done|].
  destruct (frames_of_texts m) as (H1 & H2 & H3).
  unfold message_texts, raw_result_texts, shown_tool_calls in *.
  change ((m :: msgs) ≫= frames_of) with (frames_of m ++ (msgs ≫= frames_of)).
  change ((m :: msgs) ≫= (λ msg, default [] (tool_calls msg)))
    with (default [] (tool_calls m)
          ++ (msgs ≫= (λ msg, default [] (tool_calls msg)))).
  rewrite !omap_app, fmap_app, H1, H2, H3, IH1, IH2, IH3.
  split_and!; try done.
  - simpl. by destruct (summary_text m).
  - simpl. by destruct (raw_text m).
Qed.


(** X8.  What the progress frames of a turn carry: the [message] frames are the
    texts of the messages no tool authored, the [raw_result] frames the
    answers of the SQL tool, and there is one [tool_call] frame for every
    tool call of whatever tool, all in the order of the events up to the
    first ill-formed one. *)
Theorem turn_frames_carry_texts (user_id : string) (query : pyval)
    (w : world) :
  let msgs :=
    observed (good_prefix (yielded (channel_run E user_id query w))) in
  let before := sent_frames (trace w) in
  let after := sent_frames (trace ((ws_turn E user_id query w).2)) in
  message_texts after = message_texts before ++ summary_texts msgs
  ∧ raw_result_texts after = raw_result_texts before ++ raw_results msgs
  ∧ shown_tool_calls after
    = shown_tool_calls before
      ++ ((λ tc, (tc_name tc, tool_call_args tc)) <$> tool_calls_of msgs).
Proof.
  intros msgs before after. subst before after.
  rewrite ws_turn_cases. cbn [snd]. rewrite after_turn_frames.
  destruct (progress_frames_texts msgs) as (H1 & H2 & H3).
  destruct (turn_terminal_closes user_id query w) as (_ & T1 & T2 & T3).
  unfold turn_progress. fold msgs.
  unfold message_texts, raw_result_texts, shown_tool_calls in *.
  rewrite !omap_app.
  change (FProcessing user_id query
          :: progress_frames msgs ++ [turn_terminal E user_id query w])
    with ([FProcessing user_id query]
          ++ progress_frames msgs ++ [turn_terminal E user_id query w]).
  rewrite !omap_app, H1, H2, H3, T1, T2, T3. simpl.
  by rewrite !app_nil_r.
Qed.

Lemma after_frames_invocations (user_id : string) (frames : list inbound)
    (w : world) :
  invocations (trace (after_frames E user_id frames w))
  = invocations (trace w)
    ++ ((λ q, (Some user_id, enhanced_input user_id (py_str q)))
          <$> utterances frames).
Proof.
  revert w. induction frames as [|[err|err|q] rest IH]; intros w;
    simpl; try by rewrite app_nil_r.
  rewrite IH. destruct (py_truthy (default (PyStr "") q)).
  - rewrite after_turn_invocations, <- app_assoc. done.
  - simpl. unfold invocations at 1. rewrite omap_app. simpl.
    by rewrite app_nil_r.
Qed.

(** X9.  Over a whole connection the engine is invoked once for every non-empty
    utterance the loop gets to, in order, each time on the thread of the
    user id given at connect time and with that id as prefix; refused and
    malformed frames invoke nothing. *)
Theorem channel_invocations (user_id : string) (frames : list inbound)
    (w : world) :
  invocations (trace ((websocket_endpoint E user_id frames w).2))
  = invocations (trace w)
    ++ ((λ q, (Some user_id, enhanced_input user_id (py_str q)))
          <$> utterances frames).
Proof.
  rewrite websocket_endpoint_cases. cbn [snd].
  destruct (exn_class_of (stops_with frames)); simpl;
    try apply after_frames_invocations;
    unfold invocations at 1; rewrite omap_app; simpl; rewrite app_nil_r;
    apply after_frames_invocations.
Qed.

Lemma stops_with_cut (pre : list inbound) (bad : inbound)
    (rest : list inbound) :
  malformed bad = true →
  stops_with (pre ++ bad :: rest) = stops_with (pre ++ [bad]).
Proof.
  intros Hbad. induction pre as [|[err|err|q] pre IH]; simpl; try done.
  by destruct bad.
Qed.

Lemma after_frames_cut (user_id : string) (pre : list inbound)
    (bad : inbound) (rest : list inbound) (w : world) :
  malformed bad = true →
  after_frames E user_id (pre ++ bad :: rest) w
  = after_frames E user_id (pre ++ [bad]) w.
Proof.
  intros Hbad. revert w.
  induction pre as [|[err|err|q] pre IH]; intros w; simpl; try done.
  by destruct bad.
Qed.

(** X11.  Whatever follows a malformed inbound frame makes no difference: the
    handler has returned before it could be received. *)
Theorem channel_ends_at_malformed_frame (user_id : string)
    (pre : list inbound) (bad : inbound) (rest : list inbound) (w : world) :
  malformed bad = true →
  websocket_endpoint E user_id (pre ++ bad :: rest) w
  = websocket_endpoint E user_id (pre ++ [bad]) w.
Proof.
  intros Hbad. rewrite !websocket_endpoint_cases.
  by rewrite stops_with_cut, after_frames_cut.
Qed.

(** X10.  The frames a connection adds fall into one block per inbound
    frame the loop gets to, in order, and each block closes its frame:
    [processing], progress frames and one terminal frame for an utterance,
    the refusal alone for an empty query, one [error] frame with the
    message for a malformed frame.  A disconnect adds nothing. *)
Theorem channel_closes_every_inbound_frame (user_id : string)
    (frames : list inbound) (w : world) :
  ∃ blocks,
    sent_frames (trace ((websocket_endpoint E user_id frames w).2))
    = sent_frames (trace w) ++ concat blocks
    ∧ Forall2 (closed_by user_id) (received frames) blocks.
Proof.
  rewrite websocket_endpoint_cases. cbn [snd].
  revert w. induction frames as [|[err|err|q] rest IH]; intros w.
  - exists []. simpl. split; [by rewrite app_nil_r|constructor].
  - exists [[FError err]]. simpl. split; [apply sent_frames_snoc|].
    repeat constructor. by exists [], (FError err).
  - exists [[FError err]]. simpl. split; [apply sent_frames_snoc|].
    repeat constructor. by exists [], (FError err).
  - cbn [stops_with after_frames received malformed].
    destruct (py_truthy (default (PyStr "") q)) eqn:Hq.
    + destruct (IH (after_turn E user_id (default (PyStr "") q) w))
        as (blocks & Hsent & Hblocks).
      exists ((FProcessing user_id (default (PyStr "") q)
               :: turn_progress E user_id (default (PyStr "") q) w
               ++ [turn_terminal E user_id (default (PyStr "") q) w])
              :: blocks).
      split.
      * rewrite Hsent, after_turn_frames. simpl. by rewrite <- app_assoc.
      * constructor; [|exact Hblocks].
        pose proof (progress_frames_progress
          (observed (good_prefix (yielded (channel_run E user_id
             (default (PyStr "") q) w))))) as Hprog.
        fold (turn_progress E user_id (default (PyStr "") q) w) in Hprog.
        exists (FProcessing user_id (default (PyStr "") q)
                :: turn_progress E user_id (default (PyStr "") q) w),
               (turn_terminal E user_id (default (PyStr "") q) w).
        split_and!.
        -- done.
        -- constructor; [done|].
           eapply Forall_impl; [exact Hprog|]. intros g Hg. by destruct g.
        -- by destruct (turn_terminal_closes user_id (default (PyStr "") q) w)
             as [-> _].
        -- cbn zeta. rewrite Hq. split; [by eexists|].
           unfold turn_terminal. by repeat case_match.
    + destruct (IH (log (Send (FQueryRequired "Query is required")) w))
        as (blocks & Hsent & Hblocks).
      exists ([FQueryRequired "Query is required"] :: blocks). split.
      * rewrite Hsent. simpl. rewrite sent_frames_snoc, <- app_assoc. done.
      * constructor; [|exact Hblocks].
        exists [], (FQueryRequired "Query is required").
        split_and!; try done. cbn zeta. by rewrite Hq.
Qed.

(** *** DELETE /preferences/{user_id} *)

(** X13.  When the store is unavailable the request is answered with a 500 that
    carries the storage message, and no row is removed. *)
Theorem delete_preferences_store_failure (user_id msg : string) (w : world) :
  db_fault w = Some msg →
  ∃ w',
    delete_preferences user_id w
    = (HTTPException 500 ("Failed to delete preferences: " +:+ msg), w')
    ∧ user_preferences w' = user_preferences w.
Proof.
  intros Hdb. unfold delete_preferences, delete_preferences_body, db_execute.
  run_monad. rewrite Hdb. by eexists.
Qed.

(** X14.  Deleting conserves the rows: the count reported and the rows left add
    up to the rows there were, and the rows left are exactly the rows of
    the other users, in their old order. *)
Theorem delete_preferences_conserves (user_id : string) (w : world) :
  db_fault w = None →
  ∃ r w',
    delete_preferences user_id w = (Http200 r, w')
    ∧ DeleteResponse.deleted_count r + length (user_preferences w')
      = length (user_preferences w)
    ∧ user_preferences w' `sublist_of` user_preferences w
    ∧ (∀ row, row ∈ user_preferences w'
              ↔ row ∈ user_preferences w ∧ row_user_id row ≠ user_id).
Proof.
  intros Hdb. eexists _, _.
  split; [by apply delete_preferences_available|].
  cbn [DeleteResponse.deleted_count]. simpl. split_and!.
  - unfold rows_of, rows_not_of. rewrite <- length_app.
    apply Permutation_length, filter_app_complement.
  - apply sublist_filter.
  - intros row. unfold rows_not_of. rewrite list_elem_of_filter.
    split; intros [? ?]; done.
Qed.

Lemma rows_not_of_comm (u1 u2 : string) (t : list pref_row) :
  rows_not_of u1 (rows_not_of u2 t) = rows_not_of u2 (rows_not_of u1 t).
Proof.
  unfold rows_not_of. rewrite !list_filter_filter.
  apply list_filter_iff. intros r. split; intros [? ?]; done.
Qed.

(** X15.  Deletions for two users are independent: either order leaves the same
    rows, and each reports the same count as it would alone. *)
Theorem delete_preferences_commute (u1 u2 : string) (w : world) :
  u1 ≠ u2 →
  db_fault w = None →
  ∃ r1 w1 r2 w2 r2' w2' r1' w1',
    delete_preferences u1 w = (Http200 r1, w1)
    ∧ delete_preferences u2 w1 = (Http200 r2, w2)
    ∧ delete_preferences u2 w = (Http200 r2', w2')
    ∧ delete_preferences u1 w2' = (Http200 r1', w1')
    ∧ user_preferences w2 = user_preferences w1'
    ∧ DeleteResponse.deleted_count r1 = DeleteResponse.deleted_count r1'
    ∧ DeleteResponse.deleted_count r2 = DeleteResponse.deleted_count r2'.
Proof.
  intros Hne Hdb. eexists _, _, _, _, _, _, _, _.
  split; [by apply delete_preferences_available|].
  split; [by apply delete_preferences_available|].
  split; [by apply delete_preferences_available|].
  split; [by apply delete_preferences_available|].
  cbn [DeleteResponse.deleted_count]. simpl. split_and!.
  - apply rows_not_of_comm.
  - by rewrite rows_not_of_other.
  - by rewrite rows_not_of_other.
Qed.

(** *** POST /clear *)

(** X16.  The id a reset answers with is never empty, as long as the uuid
    generator does not produce the empty string: an empty id in the
    request is replaced, not echoed. *)
Theorem clear_conversation_id_not_empty
    (request : ConversationClearRequest.t) (w : world) :
  (∀ n, uuid4 E n ≠ "") →
  ∃ resp w',
    clear_conversation E request w = (Http200 resp, w')
    ∧ ClearResponse.new_user_id resp ≠ "".
Proof.
  intros Huuid.
  unfold clear_conversation, clear_conversation_body, new_uuid,
    now_isoformat.
  destruct request as [[u|]]; run_monad.
  - unfold str_truthy. case_bool_decide as Hu; simpl;
      eexists _, _; (split; [done|]); simpl; [done|apply Huuid].
  - eexists _, _. split; [done|]. apply Huuid.
Qed.

End Coverage.

(** ** The further properties at sample inputs *)

Lemma X2_witness :
  ∃ w',
    execute_query (scripted broken_run) (QueryRequest.parse "how many" Omitted)
                  boot
    = (HTTPException 500 "Query execution failed: timeout", w').
Proof.
  destruct (execute_query_failure_detail (scripted broken_run)
              (QueryRequest.parse "how many" Omitted) boot) as [_ Hraised].
  apply (Hraised "timeout"); reflexivity.
Defined.

Lemma X3_witness :
  ∃ resp w',
    execute_query (scripted retry_run) (QueryRequest.parse "how many" Omitted)
                  boot = (Http200 resp, w')
    ∧ QueryResponse.raw_result resp = Some "[(2,)]".
Proof.
  apply (execute_query_raw_result_is_latest (scripted retry_run)
           (QueryRequest.parse "how many" Omitted) boot "default_user"
           ["error"] "[(2,)]"); reflexivity.
Defined.

Lemma X4_witness :
  ∃ resp w',
    execute_query (scripted bare_run) (QueryRequest.parse "how many" Omitted)
                  boot = (Http200 resp, w')
    ∧ QueryResponse.sql_query resp = Some "".
Proof.
  apply (execute_query_sql_without_query_arg (scripted bare_run)
           (QueryRequest.parse "how many" Omitted) boot "default_user"
           [] (ToolCall (Some sql_tool) None)); reflexivity.
Defined.


Lemma X11_witness :
  websocket_endpoint (scripted retry_run) "u"
    [Request (Some (PyStr "how many")); BadJson "Expecting value";
     Request (Some (PyStr "and now"))] boot
  = websocket_endpoint (scripted retry_run) "u"
      [Request (Some (PyStr "how many")); BadJson "Expecting value"] boot.
Proof.
  apply (channel_ends_at_malformed_frame (scripted retry_run) "u"
           [Request (Some (PyStr "how many"))] (BadJson "Expecting value")
           [Request (Some (PyStr "and now"))] boot).
  reflexivity.
Defined.

Lemma X13_witness :
  ∃ w',
    delete_preferences "alice" offline
    = (HTTPException 500
         "Failed to delete preferences: unable to open database file", w')
    ∧ user_preferences w' = user_preferences offline.
Proof.
  apply (delete_preferences_store_failure "alice"
           "unable to open database file" offline).
  reflexivity.
Defined.

Lemma X14_witness :
  ∃ r w',
    delete_preferences "alice" stocked = (Http200 r, w')
    ∧ DeleteResponse.deleted_count r + length (user_preferences w')
      = length (user_preferences stocked).
Proof.
  destruct (delete_preferences_conserves "alice" stocked eq_refl)
    as (r & w' & Hdel & Hsum & _).
  exists r, w'. split; [exact Hdel|exact Hsum].
Defined.

Lemma X15_witness :
  ∃ r1 w1 r2 w2 r2' w2' r1' w1',
    delete_preferences "alice" stocked = (Http200 r1, w1)
    ∧ delete_preferences "bob" w1 = (Http200 r2, w2)
    ∧ delete_preferences "bob" stocked = (Http200 r2', w2')
    ∧ delete_preferences "alice" w2' = (Http200 r1', w1')
    ∧ user_preferences w2 = user_preferences w1'
    ∧ DeleteResponse.deleted_count r1 = DeleteResponse.deleted_count r1'
    ∧ DeleteResponse.deleted_count r2 = DeleteResponse.deleted_count r2'.
Proof.
  apply (delete_preferences_commute "alice" "bob" stocked);
    [discriminate|reflexivity].
Defined.

Lemma X16_witness :
  ∃ resp w',
    clear_conversation (scripted retry_run)
      (ConversationClearRequest.parse (Given "")) boot = (Http200 resp, w')
    ∧ ClearResponse.new_user_id resp ≠ "".
Proof.
  apply (clear_conversation_id_not_empty (scripted retry_run)
           (ConversationClearRequest.parse (Given "")) boot).
  intros n. discriminate.
Defined.
